(** * interpret.visual.dashboard: the dispatcher and its lifecycle manager

    A shallow embedding of [interpret/visual/dashboard.py]: the WSGI
    dispatcher [DispatcherApp] (session registry, path routing, control
    routes) and the lifecycle manager [AppRunner] (port allocation, start,
    stop, ping, status, display links).

    Python [str] values are [string]s whose characters are code points
    0..255 (the WSGI native-string convention for [PATH_INFO]); Python
    [bytes] are [list byte]; [dict]s used as maps are [gmap]s, except the
    session pool, whose insertion order is observable on the status page and
    is therefore an association list.  Everything the module reaches outside
    itself (the WSGI server's [start_response], sockets, [random], [requests],
    threads, the file system, the Dash session factory) is an oracle of the
    [Externals] interface that sees the events so far, and each use is
    recorded in an event trace. *)

From Stdlib Require Import ZArith Strings.Ascii Strings.String Strings.Byte List Lia.
From stdpp Require Import base tactics option list strings gmap pretty.

(* ===================================================================== *)
(** ** Python values *)
(* ===================================================================== *)

Definition bytes := list byte.

(** The double quote, for the literals that contain it. *)
Definition dq : string := String "034"%char EmptyString.

(** [b"..."] for an ASCII literal. *)
Definition bytes_literal (s : string) : bytes :=
  map byte_of_ascii (list_ascii_of_string s).

(** [str.encode("utf-8")] on code points 0..255: one byte below 128, the
    two-byte form [110xxxxx 10xxxxxx] from 128 on. *)
Definition utf8_char (c : ascii) : bytes :=
  let n := N_of_ascii c in
  if (n <? 128)%N then [byte_of_ascii c]
  else [byte_of_ascii (ascii_of_N (192 + n / 64)%N);
        byte_of_ascii (ascii_of_N (128 + n mod 64)%N)].

Fixpoint encode_utf8 (s : string) : bytes :=
  match s with
  | EmptyString => []
  | String c s' => utf8_char c ++ encode_utf8 s'
  end.

Definition is_ascii (s : string) : bool :=
  forallb (fun c => (N_of_ascii c <? 128)%N) (list_ascii_of_string s).

(** [sep.join(items)] *)
Fixpoint join (sep : string) (items : list string) : string :=
  match items with
  | [] => ""
  | [x] => x
  | x :: rest => x +:+ sep +:+ join sep rest
  end.

(** An object as far as this module looks at it: its identity [id(obj)] and
    an opaque rendering of its value, which the module never inspects. *)
Record PyObject := mkObj { py_id : N; py_value : string }.

(** The exceptions the module meets, all of them subclasses of [Exception].
    [requests.exceptions.RequestException] derives from [OSError]. *)
Inductive exn :=
| KeyError (key : string)
| OSError (msg : string)
| RuntimeError (msg : string)
| RequestException (msg : string)
| Exception (msg : string).

Definition exn_str (e : exn) : string :=
  match e with
  | KeyError k => "'" +:+ k +:+ "'"
  | OSError m | RuntimeError m | RequestException m | Exception m => m
  end.

Definition is_OSError (e : exn) : bool :=
  match e with OSError _ | RequestException _ => true | _ => false end.

Definition is_RequestException (e : exn) : bool :=
  match e with RequestException _ => true | _ => false end.

Inductive result (A : Type) :=
| Ok (a : A)
| Raise (e : exn).
Arguments Ok {A} a.
Arguments Raise {A} e.

(* ===================================================================== *)
(** ** The fragment of [re] the dispatcher uses *)
(* ===================================================================== *)

Module Re.

Inductive atom :=
| AChr (c : ascii)   (* a literal character *)
| ADot.              (* [.]: any character but a newline *)

Inductive regex :=
| Eps
| Atom (a : atom)
| Eol                          (* [$] *)
| Cat (r1 r2 : regex)
| Alt (r1 r2 : regex)          (* [r1|r2], left first *)
| Opt (r : regex)              (* greedy [r?] *)
| PlusLazy (a : atom)          (* [a+?] *)
| Group (i : nat) (r : regex). (* capturing group number [i] *)

Definition newline : ascii := "010"%char.
Definition newline_str : string := String newline EmptyString.

Definition atom_matches (a : atom) (c : ascii) : bool :=
  match a with
  | AChr x => Ascii.eqb x c
  | ADot => negb (Ascii.eqb c newline)
  end.

(** [$] without MULTILINE: at the end, or just before a final newline. *)
Definition at_eol (s : string) : bool :=
  match s with
  | EmptyString => true
  | String c EmptyString => Ascii.eqb c newline
  | _ => false
  end.

Abbreviation Groups := (gmap nat string).
Definition Cont := string -> Groups -> option Groups.

(** What was consumed between the suffix [s] and its suffix [s']. *)
Definition consumed (s s' : string) : string :=
  substring 0 (String.length s - String.length s') s.

(** [a+?]: one [a], then as few more as the continuation allows. *)
Fixpoint plus_lazy (a : atom) (s : string) (g : Groups) (k : Cont)
  : option Groups :=
  match s with
  | EmptyString => None
  | String c s' =>
      if atom_matches a c then
        match k s' g with
        | Some g' => Some g'
        | None => plus_lazy a s' g k
        end
      else None
  end.

(** Backtracking match of [r] at the head of [s], in the order the [re]
    engine explores alternatives; [k] is the rest of the pattern. *)
Fixpoint run (r : regex) (s : string) (g : Groups) (k : Cont)
  : option Groups :=
  match r with
  | Eps => k s g
  | Atom a =>
      match s with
      | String c s' => if atom_matches a c then k s' g else None
      | EmptyString => None
      end
  | Eol => if at_eol s then k s g else None
  | Cat r1 r2 => run r1 s g (fun s' g' => run r2 s' g' k)
  | Alt r1 r2 =>
      match run r1 s g k with
      | Some g' => Some g'
      | None => run r2 s g k
      end
  | Opt r1 =>
      match run r1 s g k with
      | Some g' => Some g'
      | None => k s g
      end
  | PlusLazy a => plus_lazy a s g k
  | Group i r1 => run r1 s g (fun s' g' => k s' (<[i := consumed s s']> g'))
  end.

(** [re.search]: the first start position, left to right, with a match.
    Group 0 is the whole match. *)
Fixpoint search (r : regex) (s : string) : option Groups :=
  match run (Group 0 r) s ∅ (fun _ g => Some g) with
  | Some g => Some g
  | None =>
      match s with
      | EmptyString => None
      | String _ s' => search r s'
      end
  end.

(** [match.group(i)] for a group that took part in the match. *)
Definition group (m : Groups) (i : nat) : string := default "" (m !! i).

Definition metachars : list ascii :=
  list_ascii_of_string ".^$*+?{}[]\|()".

Definition is_metachar (c : ascii) : bool :=
  existsb (Ascii.eqb c) metachars.

(** [re.compile] on a text interpolated into a pattern, for texts in which
    every character stands for itself or is a dot.  [None]: the text uses
    pattern syntax outside this fragment. *)
Fixpoint compile_text (s : string) : option regex :=
  match s with
  | EmptyString => Some Eps
  | String c s' =>
      match compile_text s' with
      | None => None
      | Some r =>
          if Ascii.eqb c "."%char then Some (Cat (Atom ADot) r)
          else if is_metachar c then None
          else Some (Cat (Atom (AChr c)) r)
      end
  end.

Definition slash : regex := Atom (AChr "/"%char).

(** [(.+?)(/|$)] *)
Definition segment : regex :=
  Cat (Group 1 (PlusLazy ADot)) (Group 2 (Alt slash Eol)).

End Re.

(* ===================================================================== *)
(** ** The world outside the module *)
(* ===================================================================== *)

Abbreviation Environ := (gmap string string).
Definition Headers := list (string * string).
Definition Body := list bytes.

(** Handles of a [gevent.pywsgi.WSGIServer] and of a [threading.Thread]. *)
Definition Server := nat.
Definition Thread := nat.

Inductive level := DEBUG | INFO | ERROR.

Inductive event :=
| Log (lvl : level) (msg : string)
| StartResponse (status : string) (headers : Headers) (accepted : bool)
| ServerStop (srv : Server)
| ServerNew (ip : string) (port : Z)
| ServeForever (srv : Server)
| FileRead (path : string)
| GenerateApp (ctx : PyObject) (share_tables : option PyObject)
              (requests_pathname_prefix routes_pathname_prefix : string)
| SocketProbe (port : Z) (free : bool)
| Randint (lo hi v : Z)
| HttpPost (url : string)
| HttpGet (url : string)
| ThreadStart (t : Thread)
| ThreadJoin (t : Thread) (timeout_seconds : Z)
| DisplayHtml (html : string).

Definition Trace := list event.

(** A WSGI application: called on the environ, it does what it does with
    the server's [start_response] (the events it reports) and returns its
    body or raises. *)
Definition App := Environ -> Trace -> result Body * list event.

(** The Dash application the session factory returns, as far as [register]
    touches it. *)
Record DashApp := mkDash {
  server : App;
  css_serve_locally : bool;
  scripts_serve_locally : bool
}.

(** The collaborators.  Each oracle sees the events so far. *)
Class Externals := {
  (** the WSGI server's [start_response]: [Some e] when it raises *)
  wsgi_start_response : Trace -> string -> Headers -> option exn;
  (** [WSGIServer.stop()] *)
  wsgi_server_stop : Trace -> Server -> option exn;
  (** [WSGIServer((ip, port), app, log=...)] *)
  wsgi_server_new : Trace -> string -> Z -> result Server;
  (** [server.serve_forever()] *)
  wsgi_serve_forever : Trace -> Server -> option exn;
  (** [open(path, "rb").read()] *)
  open_read : Trace -> string -> result bytes;
  (** [_udash.generate_app(ctx, {"share_tables": ...}, requests_pathname_prefix=...,
      routes_pathname_prefix=...)] *)
  generate_app : Trace -> PyObject -> option PyObject -> string -> string
                 -> result DashApp;
  (** socket, bind to 127.0.0.1, listen, close: [false] when [OSError] *)
  socket_probe : Trace -> Z -> bool;
  (** [random.randint(lo, hi)] *)
  random_randint : Trace -> Z -> Z -> Z;
  random_randint_range : forall tr lo hi,
    (lo <= hi)%Z -> (lo <= random_randint tr lo hi <= hi)%Z;
  (** [requests.post(url)], [requests.get(url)]: the response as the log
      prints it, or the message of the [RequestException] (the base class
      of everything [requests] raises).  What [requests] lets through of
      the libraries below it (urllib3's [LocationParseError] for a host it
      cannot parse) is not modelled: the statements on [stop], [ping] and
      [status] fix the outcome of the request or are about the calls that
      return. *)
  requests_post : Trace -> string -> string + string;
  requests_get : Trace -> string -> string + string;
  (** [threading.Thread(...)] followed by [start()] *)
  thread_spawn : Trace -> Thread;
  (** [Thread.is_alive()] *)
  thread_is_alive : Trace -> Thread -> bool;
  (** [os.path.dirname(os.path.abspath(__file__))] *)
  package_dir : string
}.

(* ===================================================================== *)
(** ** Methods: state on the object, events on the trace, exceptions *)
(* ===================================================================== *)

(** A method body on an object of type [O]: what it returns or raises, the
    object as it leaves it, and the trace.  A raise keeps the mutations made
    before it. *)
Definition M (O A : Type) : Type := O -> Trace -> result A * O * Trace.

Definition ret {O A} (a : A) : M O A := fun o tr => (Ok a, o, tr).

Definition bind {O A B} (m : M O A) (k : A -> M O B) : M O B :=
  fun o tr =>
    match m o tr with
    | (Ok a, o', tr') => k a o' tr'
    | (Raise e, o', tr') => (Raise e, o', tr')
    end.

Definition raise {O A} (e : exn) : M O A := fun o tr => (Raise e, o, tr).

Definition get {O} : M O O := fun o tr => (Ok o, o, tr).
Definition put {O} (o' : O) : M O unit := fun _ tr => (Ok tt, o', tr).
Definition emit {O} (ev : event) : M O unit := fun o tr => (Ok tt, o, tr ++ [ev]).

(** [try: m  except C as e: h e], with [catches] deciding [isinstance(e, C)]. *)
Definition try_except {O A} (m : M O A) (catches : exn -> bool) (h : exn -> M O A)
  : M O A :=
  fun o tr =>
    match m o tr with
    | (Raise e, o', tr') => if catches e then h e o' tr' else (Raise e, o', tr')
    | r => r
    end.

(** A call of an oracle that either succeeds or raises. *)
Definition oracle {O A} (f : Trace -> result A) (ev : event) : M O A :=
  fun o tr => (f tr, o, tr ++ [ev]).

Definition raises_to_result (r : option exn) : result unit :=
  match r with None => Ok tt | Some e => Raise e end.

Definition response_or_raise (r : string + string) : result string :=
  match r with inl resp => Ok resp | inr msg => Raise (RequestException msg) end.

(** Running a method of a component held in a field. *)
Definition zoom {O P A} (proj : O -> P) (upd : P -> O -> O) (m : M P A) : M O A :=
  fun o tr =>
    match m (proj o) tr with
    | (r, p', tr') => (r, upd p' o, tr')
    end.

Declare Scope py_scope.
Delimit Scope py_scope with py.
Notation "x <- m ;; k" := (bind m (fun x => k))
  (at level 100, m at next level, right associativity) : py_scope.
Notation "m ;;; k" := (bind m (fun _ => k))
  (at level 100, right associativity) : py_scope.
Local Open Scope py_scope.

Definition log {O} (lvl : level) (msg : string) : M O unit := emit (Log lvl msg).

(** [d[key]] *)
Definition getitem {O V} (d : gmap string V) (key : string) : M O V :=
  match d !! key with
  | Some v => ret v
  | None => raise (KeyError key)
  end.

(** The insertion-ordered [dict] of the session pool. *)
Section Dict.
Context {V : Type}.

Fixpoint dict_get (d : list (string * V)) (key : string) : option V :=
  match d with
  | [] => None
  | (k, v) :: d' => if String.eqb k key then Some v else dict_get d' key
  end.

(** [key in d] *)
Definition dict_contains (d : list (string * V)) (key : string) : bool :=
  match dict_get d key with Some _ => true | None => false end.

(** [d[key] = v]: in place for a key that is there, at the end otherwise. *)
Fixpoint dict_set (d : list (string * V)) (key : string) (v : V)
  : list (string * V) :=
  match d with
  | [] => [(key, v)]
  | (k, w) :: d' =>
      if String.eqb k key then (k, v) :: d' else (k, w) :: dict_set d' key v
  end.

Definition dict_keys (d : list (string * V)) : list string := map fst d.
End Dict.

(** [d[key]] on the pool *)
Definition dict_getitem {O V} (d : list (string * V)) (key : string) : M O V :=
  match dict_get d key with
  | Some v => ret v
  | None => raise (KeyError key)
  end.

(** The calls into the collaborators, as the methods make them. *)
Section Calls.
Context `{Externals} {O : Type}.

Definition start_response (status : string) (headers : Headers) : M O unit :=
  fun o tr =>
    match wsgi_start_response tr status headers with
    | None => (Ok tt, o, tr ++ [StartResponse status headers true])
    | Some e => (Raise e, o, tr ++ [StartResponse status headers false])
    end.

Definition server_stop (srv : Server) : M O unit :=
  oracle (fun tr => raises_to_result (wsgi_server_stop tr srv)) (ServerStop srv).

Definition read_binary_file (path : string) : M O bytes :=
  oracle (fun tr => open_read tr path) (FileRead path).

Definition call_app (app : App) (environ : Environ) : M O Body :=
  fun o tr => let '(r, evs) := app environ tr in (r, o, tr ++ evs).
End Calls.

(* ===================================================================== *)
(** ** [class DispatcherApp] *)
(* ===================================================================== *)

Module DispatcherApp.

Record t := mk {
  base_url : option string;
  use_relative_links : bool;
  favicon_res : string;
  pool : list (string * App);
  config : gmap string Server;
  app_pattern : Re.regex
}.

Definition set_pool (p : list (string * App)) (self : t) : t :=
  mk (base_url self) (use_relative_links self) (favicon_res self) p
     (config self) (app_pattern self).

Definition set_config (c : gmap string Server) (self : t) : t :=
  mk (base_url self) (use_relative_links self) (favicon_res self) (pool self)
     c (app_pattern self).

(** [self.root_path], [self.shutdown_path], [self.favicon_path]: assigned
    the same literal in every [__init__] and never again. *)
Definition root_path : string := "/".
Definition shutdown_path : string := "/shutdown".
Definition favicon_path : string := "/favicon.ico".

(** [re.compile(r"/?(.+?)(/|$)")], or
    [re.compile(rf"/?(?:{self.base_url}/)?(.+?)(/|$)")]. *)
Definition compile_app_pattern (base_url : option string) : option Re.regex :=
  match base_url with
  | None => Some (Re.Cat (Re.Opt Re.slash) Re.segment)
  | Some b =>
      match Re.compile_text b with
      | Some rb =>
          Some (Re.Cat (Re.Opt Re.slash)
                  (Re.Cat (Re.Opt (Re.Cat rb Re.slash)) Re.segment))
      | None => None
      end
  end.

(** [None] when [base_url] is outside the pattern fragment of [Re]. *)
Definition __init__ `{Externals} (base_url : option string)
    (use_relative_links : bool) : option t :=
  match compile_app_pattern base_url with
  | Some pat =>
      Some (mk base_url use_relative_links
              (package_dir +:+ "/assets/favicon.ico") [] ∅ pat)
  | None => None
  end.

Definition obj_id (obj : PyObject) : string := pretty (py_id obj).

Section Methods.
Context `{Externals}.

Definition register (ctx : PyObject) (share_tables : option PyObject)
  : M t unit :=
  let ctx_id := obj_id ctx in
  self <- get ;;
  if negb (dict_contains (pool self) ctx_id) then
    log INFO ("Creating App Entry: " +:+ ctx_id) ;;;
    let ctx_path :=
      match base_url self with
      | None => "/" +:+ ctx_id +:+ "/"
      | Some b => "/" +:+ b +:+ "/" +:+ ctx_id +:+ "/"
      end in
    app <- oracle (fun tr => generate_app tr ctx share_tables ctx_path ctx_path)
             (GenerateApp ctx share_tables ctx_path ctx_path) ;;
    let app := mkDash (server app) true (scripts_serve_locally app) in
    let app := mkDash (server app) (css_serve_locally app) true in
    self <- get ;;
    put (set_pool (dict_set (pool self) ctx_id (server app)) self)
  else
    log DEBUG ("App Entry found: " +:+ ctx_id).

Definition root_body_head : string :=
  "<!DOCTYPE html>
<html lang=" +:+ dq +:+
"en" +:+ dq +:+
">
<head>
    <meta charset=" +:+ dq +:+
"UTF-8" +:+ dq +:+
">
    <title>Backend Server</title>
</head>
<style>
body {
    background-color: white;
    margin: 0;
    padding: 0;
    min-height: 100vh;
}
.banner {
    height: 65px;
    margin: 0;
    padding: 0;
    background-color: rgb(20, 100, 130);
    box-shadow: rgba(0, 0, 0, 0.1) 1px 2px 3px 0px;
}
.banner h2{
    color: white;
    margin-top: 0px;
    padding: 15px 0;
    text-align: center;
    font-family: Georgia, Times New Roman, Times, serif;
}
.app {
    background-color: rgb(245, 245, 250);
    min-height: 100vh;
    overflow: hidden;
}
.card-header{
    padding-top: 12px;
    padding-bottom: 12px;
    padding-left: 20px;
    padding-right: 20px;
    position: relative;
    line-height: 1;
    border-bottom: 1px solid #eaeff2;
    background-color: rgba(20, 100, 130, 0.78);
}
.card-body{
    padding-top: 30px;
    padding-bottom: 30px;
    position: relative;
    padding-left: 20px;
    padding-right: 20px;
}
.card-title{
    display: inline-block;
    margin: 0;
    color: #ffffff;
}
.card {
    border-radius: 3px;
    background-color: white;
    box-shadow: 0 2px 6px rgba(0, 0, 0, 0.08);
    border: 1px solid #d1d6e6;
    margin: 30px 20px;
}
.link-container {
    text-align: center;
}
.link-container ul {
    display: inline-block;
    margin: 0px;
    padding: 0px;
}
.link-container li {
    display: block;
    padding: 15px;
}
.center {
    position: absolute;
    left: 50%;
    top: 50%;
    -webkit-transform: translate(-50%, -50%);
    transform: translate(-50%, -50%);
}
</style>
<body>
<div class=" +:+ dq +:+
"app" +:+ dq +:+
">
    <div class=" +:+ dq +:+
"banner" +:+ dq +:+
"><h2>Backend Server</h2></div>
    <div class=" +:+ dq +:+
"card" +:+ dq +:+
">
        <div class=" +:+ dq +:+
"card-header" +:+ dq +:+
">
            <div class=" +:+ dq +:+
"card-title" +:+ dq +:+
"><div class=" +:+ dq +:+
"center" +:+ dq +:+
">Active Links</div></div>
        </div>
        <div class=" +:+ dq +:+
"card-body" +:+ dq +:+
">
            <div class=" +:+ dq +:+
"link-container" +:+ dq +:+
">
                <ul>
                    ".

Definition root_body_tail : string :=
  "
                </ul>
            </div>
        </div>
    </div>
</div>
</body>
</html>
".

(** [Template(body).substitute(list=items)]: [body] holds the one
    placeholder [$list], between [root_body_head] and [root_body_tail]. *)
Definition _root_content (self : t) : string :=
  let items :=
    match pool self with
    | [] => "<li>No active links.</li>"
    | _ =>
        join Re.newline_str
          (map (fun key =>
                  "<li><a href=" +:+ dq +:+
                  match base_url self with
                  | None => "/" +:+ key +:+ "/"
                  | Some b => "/" +:+ b +:+ "/" +:+ key +:+ "/"
                  end +:+ dq +:+ ">" +:+ key +:+ "</a></li>")
             (dict_keys (pool self)))
    end in
  root_body_head +:+ items +:+ root_body_tail.

Definition html_headers : Headers := [("content-type", "text/html")].

Definition shutdown_body : Body := [bytes_literal "Shutdown"].

Definition internal_error_body : Body :=
  [bytes_literal
     "Internal Server Error caught by Dispatcher. See logs if available."].

Definition unsupported_msg (path_info : string) : string :=
  "URL not supported: " +:+ path_info.

(** The [str] test of [if self.base_url and ...]. *)
Definition truthy (s : option string) : bool :=
  match s with
  | None | Some EmptyString => false
  | Some _ => true
  end.

(** Lines 264-282: the route of a path that is no control path. *)
Definition route_session (environ : Environ) (path_info : string)
  : M t Body :=
  self <- get ;;
  let bad_request :=
    let msg := unsupported_msg path_info in
    log ERROR msg ;;;
    start_response "400 BAD REQUEST ERROR" html_headers ;;;
    ret [encode_utf8 msg] in
  match Re.search (app_pattern self) path_info with
  | None => bad_request
  | Some m =>
      match dict_get (pool self) (Re.group m 1) with
      | None => bad_request
      | Some _ =>
          let ctx_id := Re.group m 1 in
          log INFO ("Routing request: " +:+ ctx_id) ;;;
          app <- dict_getitem (pool self) ctx_id ;;
          environ <-
            (if truthy (base_url self) then
               p <- getitem environ "PATH_INFO" ;;
               if negb (String.prefix ("/" +:+ default "" (base_url self)) p) then
                 log INFO "No base url in path. Rewrite to include in path." ;;;
                 p <- getitem environ "PATH_INFO" ;;
                 ret (<["PATH_INFO" := "/" +:+ default "" (base_url self) +:+ p]>
                        environ)
               else ret environ
             else ret environ) ;;
          call_app app environ
      end
  end.

(** Lines 244-282: the body of the [try]. *)
Definition dispatch (environ : Environ) (path_info : string) : M t Body :=
  if String.eqb path_info root_path then
    log INFO "Root path requested." ;;;
    start_response "200 OK" html_headers ;;;
    self <- get ;;
    let content := _root_content self in
    ret [encode_utf8 content]
  else if String.eqb path_info shutdown_path then
    log INFO "Shutting down." ;;;
    self <- get ;;
    server <- getitem (config self) "server" ;;
    server_stop server ;;;
    start_response "200 OK" html_headers ;;;
    ret shutdown_body
  else if String.eqb path_info favicon_path then
    log INFO "Favicon requested." ;;;
    start_response "200 OK" [("content-type", "image/x-icon")] ;;;
    self <- get ;;
    data <- read_binary_file (favicon_res self) ;;
    ret [data]
  else route_session environ path_info.

(** Lines 284-292: [except Exception as e]. *)
Definition on_exception (e : exn) : M t Body :=
  log ERROR (exn_str e) ;;;
  try_except
    (start_response "500 INTERNAL SERVER ERROR" [("Content-Type", "text/plain")])
    (fun _ => true) (fun _ => ret tt) ;;;
  ret internal_error_body.

Definition __call__ (environ : Environ) : M t Body :=
  let path_info := default "" (environ !! "PATH_INFO") in
  let script_name := default "" (environ !! "SCRIPT_NAME") in
  log DEBUG ("PATH INFO  : " +:+ path_info) ;;;
  log DEBUG ("SCRIPT NAME: " +:+ script_name) ;;;
  try_except (dispatch environ path_info) (fun _ => true) on_exception.
End Methods.

End DispatcherApp.

(* ===================================================================== *)
(** ** [class AppRunner] *)
(* ===================================================================== *)

(** [_build_path(path, base_url=None)] *)
Definition _build_path (path : string) (base_url : option string) : string :=
  if DispatcherApp.truthy base_url then default "" base_url +:+ "/" +:+ path
  else path.

Module AppRunner.

Record t := mk {
  app : DispatcherApp.t;
  base_url : option string;
  use_relative_links : bool;
  _thread : option Thread;
  ip : string;
  port : Z
}.

Definition set_app (a : DispatcherApp.t) (self : t) : t :=
  mk a (base_url self) (use_relative_links self) (_thread self) (ip self)
     (port self).

Definition set_thread (th : option Thread) (self : t) : t :=
  mk (app self) (base_url self) (use_relative_links self) th (ip self)
     (port self).

(** The [dict] that [status] returns. *)
Record status_dict := mkStatus {
  addr : string * Z;
  status_base_url : option string;
  status_use_relative_links : bool;
  thread_alive : bool;
  http_reachable : bool
}.

Definition max_attempts : nat := 10.

Definition no_port_msg : string :=
  "Could not find open port.
                Consider calling `interpret.set_show_addr((" +:+ dq +:+
  "127.0.0.1" +:+ dq +:+ ", 7001))` first.
                ".

Section Methods.
Context `{Externals}.

(** Lines 78-82: socket, bind, listen, close, for a port of 0..65535 as
    [__init__] passes them ([bind] raises [OverflowError] for any other,
    which is not modelled). *)
Definition bind_listen_close {O} (port : Z) : M O unit :=
  fun o tr =>
    if socket_probe tr port then (Ok tt, o, tr ++ [SocketProbe port true])
    else (Raise (OSError "bind"), o, tr ++ [SocketProbe port false]).

Definition _local_port_available {O} (port : Z) (rais : bool) : M O bool :=
  try_except
    (bind_listen_close port ;;; ret true)
    is_OSError
    (fun _ =>
       if rais then
         raise (RuntimeError
                  ("The server is already running on port " +:+ pretty port))
       else ret false).

Definition randint {O} (lo hi : Z) : M O Z :=
  fun o tr =>
    let v := random_randint tr lo hi in (Ok v, o, tr ++ [Randint lo hi v]).

(** Lines 53-60: [for _ in range(max_attempts)] with [attempts] rounds
    left; [Some port] at the [break], [None] when the loop runs out and
    the [else] clause is due. *)
Fixpoint allocate_port {O} (attempts : nat) (port : Z) : M O (option Z) :=
  match attempts with
  | O => ret None
  | S attempts' =>
      free <- _local_port_available port false ;;
      if (free : bool) then
        log INFO ("Found open port: " +:+ pretty port) ;;;
        ret (Some port)
      else
        log INFO ("Port already in use: " +:+ pretty port) ;;;
        port <- randint 7002 7999 ;;
        allocate_port attempts' port
  end.

(** [None] when [base_url] is outside the pattern fragment of [Re]. *)
Definition __init__ (addr : option (string * Z)) (base_url : option string)
    (use_relative_links : bool) : option (M unit t) :=
  match DispatcherApp.__init__ base_url use_relative_links with
  | None => None
  | Some app =>
      Some
        match addr with
        | None =>
            let ip := "127.0.0.1" in
            found <- allocate_port max_attempts 7001 ;;
            match found with
            | Some port => ret (mk app base_url use_relative_links None ip port)
            | None =>
                log ERROR no_port_msg ;;;
                raise (RuntimeError no_port_msg)
            end
        | Some a => ret (mk app base_url use_relative_links None (fst a) (snd a))
        end
  end.

Definition http_url (self : t) (path : string) : string :=
  "http://" +:+ ip self +:+ ":" +:+ pretty (port self) +:+ "/" +:+ path.

Definition is_alive (th : Thread) : M t bool :=
  fun o tr => (Ok (thread_is_alive tr th), o, tr).

(** The value of [stop] is [Some b] where the [except] clause returns. *)
Definition stop : M t bool :=
  self <- get ;;
  match _thread self with
  | None => ret true
  | Some _ =>
      log INFO "Triggering shutdown" ;;;
      returned <-
        try_except
          (let path := _build_path "shutdown" None in
           let url := http_url self path in
           r <- oracle (fun tr => response_or_raise (requests_post tr url))
                  (HttpPost url) ;;
           log DEBUG r ;;;
           ret None)
          is_RequestException
          (fun e =>
             log INFO ("Dashboard stop failed: " +:+ exn_str e) ;;;
             ret (Some false)) ;;
      match returned with
      | Some b => ret b
      | None =>
          self <- get ;;
          match _thread self with
          | Some th =>
              emit (ThreadJoin th 5) ;;;
              alive <- is_alive th ;;
              if (alive : bool) then
                log ERROR "Thread still alive despite shutdown called." ;;;
                ret false
              else
                put (set_thread None self) ;;;
                ret true
          | None => ret true
          end
      end
  end.

(** The target of the background thread. *)
Definition _run : M t unit :=
  try_except
    (self <- get ;;
     srv <- oracle (fun tr => wsgi_server_new tr (ip self) (port self))
              (ServerNew (ip self) (port self)) ;;
     self <- get ;;
     put (set_app
            (DispatcherApp.set_config
               (<["server" := srv]> (DispatcherApp.config (app self)))
               (app self))
            self) ;;;
     oracle (fun tr => raises_to_result (wsgi_serve_forever tr srv))
       (ServeForever srv))
    (fun _ => true)
    (fun e => log ERROR (exn_str e)).

Definition _obj_id (obj : PyObject) : string := pretty (py_id obj).

Definition start : M t unit :=
  self <- get ;;
  log INFO ("Running app runner on: " +:+ ip self +:+ ":" +:+ pretty (port self)) ;;;
  th <- (fun o tr => (Ok (thread_spawn tr), o, tr ++ [ThreadStart (thread_spawn tr)])) ;;
  self <- get ;;
  put (set_thread (Some th) self).

Definition ping : M t bool :=
  self <- get ;;
  try_except
    (let path := _build_path "" None in
     let url := http_url self path in
     oracle (fun tr => response_or_raise (requests_get tr url)) (HttpGet url) ;;;
     log INFO "Dashboard ping succeeded" ;;;
     ret true)
    is_RequestException
    (fun e =>
       log INFO ("Dashboard ping failed: " +:+ exn_str e) ;;;
       ret false).

Definition status : M t status_dict :=
  self <- get ;;
  alive <-
    match _thread self with
    | Some th => is_alive th
    | None => ret false
    end ;;
  reachable <- ping ;;
  ret (mkStatus (ip self, port self) (base_url self) (use_relative_links self)
         alive reachable).

Definition register (ctx : PyObject) (share_tables : option PyObject)
  : M t unit :=
  zoom app set_app (DispatcherApp.register ctx share_tables).

Definition display_link (ctx : PyObject) : M t string :=
  self <- get ;;
  let obj_path := _obj_id ctx +:+ "/" in
  let path :=
    match base_url self with
    | None => obj_path
    | Some b => b +:+ "/" +:+ obj_path
    end in
  let start_url :=
    if use_relative_links self then "/"
    else "http://" +:+ ip self +:+ ":" +:+ pretty (port self) +:+ "/" in
  let url := start_url +:+ path in
  log INFO ("Display URL: " +:+ url) ;;;
  ret url.

Definition display (ctx : PyObject) (width height : string) (open_link : bool)
  : M t unit :=
  url <- display_link ctx ;;
  let html_str := "<!-- " +:+ url +:+ " -->" +:+ Re.newline_str in
  let html_str :=
    if open_link then
      html_str +:+ "<a href=" +:+ dq +:+ url +:+ dq +:+ " target=" +:+ dq +:+
      "_new" +:+ dq +:+ ">Open in new window</a>"
    else html_str in
  let html_str :=
    html_str +:+ "<iframe src=" +:+ dq +:+ url +:+ dq +:+ " width=" +:+ width +:+
    " height=" +:+ height +:+ " frameBorder=" +:+ dq +:+ "0" +:+ dq +:+
    "></iframe>" in
  emit (DisplayHtml html_str).
End Methods.

End AppRunner.

(* ===================================================================== *)
(** ** [_udash.generate_app]: mini or full application, and shared tables *)
(* ===================================================================== *)

(** The part of [_udash.py] that decides which application is generated
    and which explanation types share one table.  Pandas frames and Dash
    applications are of arbitrary types; what the module does to them (the
    preparation and the comparison of frames, the construction of the two
    kinds of application) are parameters, each able to raise where the
    real one is.  The [_log.debug] lines are left out. *)
Module Udash.
Section Frames.

Context {DataFrame Dash : Type}.
(** [selector.copy()], [reset_index(drop=True)], [df["id"] = df.index],
    [df *= 1]: the prepared frame, or what one of the four raises ([df *= 1]
    raises [TypeError] on a frame with a column that does not multiply). *)
Context (df_prepare : DataFrame -> result DataFrame).
(** [df.equals(other)] *)
Context (df_equals : DataFrame -> DataFrame -> bool).

Record Explanation := mkExplanation {
  explanation_type : string;
  selector : option DataFrame
}.

(** [generate_app_full(requests_pathname_prefix=..., routes_pathname_prefix=...)]
    and [generate_app_mini(item, url_base_pathname=..., ...)]: the Dash
    application, or what its construction raises. *)
Context (generate_app_full : option string -> option string -> result Dash).
Context (generate_app_mini : Explanation * option DataFrame -> option string ->
                             option string -> option string -> result Dash).

(** An item of a context: a tuple [(explanation, selector)] or an
    explanation. *)
Inductive ctx_item :=
| ItemTuple (explanation : Explanation) (selector : option DataFrame)
| ItemExplanation (explanation : Explanation).

(** A context: a list of items, or one item passed as a scalar. *)
Inductive context :=
| CtxList (items : list ctx_item)
| CtxScalar (item : ctx_item).

(** The values of an options dict. *)
Inductive value :=
| VNone
| VBool (b : bool)
| VDict (d : list (string * bool))
| VOther (repr : string).

(** What [generate_app] returns: the mini application, or the full one with
    the attributes [ctx] and [options] set on it. *)
Inductive app :=
| MiniApp (dash : Dash)
| FullApp (dash : Dash) (ctx : list (Explanation * option DataFrame))
          (options : gmap string value).

Definition _expand_ctx_item (item : ctx_item)
  : result (Explanation * option DataFrame) :=
  let '(explanation, selector) :=
    match item with
    | ItemTuple e s => (e, s)
    | ItemExplanation e => (e, selector e)
    end in
  match selector with
  | Some sel =>
      match df_prepare sel with
      | Ok df => Ok (explanation, Some df)
      | Raise e => Raise e
      end
  | None => Ok (explanation, None)
  end.

(** Lines 884-886: the items expanded in order, up to the first that
    raises. *)
Fixpoint expand_all (ctx : list ctx_item)
  : result (list (Explanation * option DataFrame)) :=
  match ctx with
  | [] => Ok []
  | item :: ctx' =>
      match _expand_ctx_item item with
      | Raise e => Raise e
      | Ok new_item =>
          match expand_all ctx' with
          | Raise e => Raise e
          | Ok new_ctx => Ok (new_item :: new_ctx)
          end
      end
  end.

Definition supported_types : list string := ["data"; "perf"; "global"; "local"].

(** [{supported_type: b for supported_type in supported_types}] *)
Definition all_types (b : bool) : list (string * bool) :=
  map (fun t => (t, b)) supported_types.

(** One round of the loop of lines 892-898, on [(shared_frames, first_dfs)].
    [first_dfs.get(t) is None] holds for a missing key and for a key whose
    value is [None]; [df.equals(None)] is [False]. *)
Definition share_step (st : list (string * bool) * list (string * option DataFrame))
    (item : Explanation * option DataFrame)
  : list (string * bool) * list (string * option DataFrame) :=
  let '(shared_frames, first_dfs) := st in
  let '(expl, df) := item in
  let expl_type := explanation_type expl in
  let first_dfs :=
    match dict_get first_dfs expl_type with
    | Some (Some _) => first_dfs
    | _ => dict_set first_dfs expl_type df
    end in
  let differs :=
    match df with
    | None => true
    | Some d =>
        match dict_get first_dfs expl_type with
        | Some (Some d0) => negb (df_equals d d0)
        | _ => true
        end
    end in
  if differs then (dict_set shared_frames expl_type false, first_dfs)
  else (shared_frames, first_dfs).

(** Lines 888-914: [shared_frames] by the value of [share_tables]. *)
Definition decide_shared (share_tables : value)
    (new_ctx : list (Explanation * option DataFrame)) : result (list (string * bool)) :=
  match share_tables with
  | VNone => Ok (fold_left share_step new_ctx (all_types true, [])).1
  | VBool true => Ok (all_types true)
  | VBool false => Ok (all_types false)
  | VDict d => Ok d
  | VOther _ => Raise (Exception "share_tables option must be True|False|None or dict.")
  end.

Definition generate_app (ctx : context) (options : gmap string value)
    (url_base_pathname requests_pathname_prefix routes_pathname_prefix : option string)
  : result app :=
  match ctx with
  | CtxScalar item =>
      match _expand_ctx_item item with
      | Raise e => Raise e
      | Ok new_item =>
          match generate_app_mini new_item url_base_pathname requests_pathname_prefix
                  routes_pathname_prefix with
          | Raise e => Raise e
          | Ok dash => Ok (MiniApp dash)
          end
      end
  | CtxList items =>
      match generate_app_full requests_pathname_prefix routes_pathname_prefix with
      | Raise e => Raise e
      | Ok dash =>
          match expand_all items with
          | Raise e => Raise e
          | Ok new_ctx =>
              let new_options := options in
              match new_options !! "share_tables" with
              | None => Raise (KeyError "share_tables")
              | Some share_tables =>
                  match decide_shared share_tables new_ctx with
                  | Raise e => Raise e
                  | Ok shared_frames =>
                      Ok (FullApp dash new_ctx
                            (<["share_tables" := VDict shared_frames]> new_options))
                  end
              end
          end
      end
  end.

(** The frame of the first explanation of type [t], when there is one. *)
Fixpoint first_of (t : string) (ctx : list (Explanation * option DataFrame))
  : option (option DataFrame) :=
  match ctx with
  | [] => None
  | (e, df) :: ctx' =>
      if String.eqb (explanation_type e) t then Some df else first_of t ctx'
  end.

(** Every explanation of type [t] has a frame, and [first] is a frame it
    equals. *)
Definition agrees_with (first : option (option DataFrame)) (t : string)
    (ctx : list (Explanation * option DataFrame)) : bool :=
  forallb
    (fun item : Explanation * option DataFrame =>
       if String.eqb (explanation_type item.1) t then
         match item.2, first with
         | Some d, Some (Some d0) => df_equals d d0
         | _, _ => false
         end
       else true)
    ctx.

(** Every explanation of type [t] has a frame, equal to that of the first
    explanation of type [t]. *)
Definition agrees (t : string) (ctx : list (Explanation * option DataFrame)) : bool :=
  agrees_with (first_of t ctx) t ctx.

(** What the loop has established for the type [t] once it has gone
    through [seen]. *)
Definition share_inv (t : string) (seen : list (Explanation * option DataFrame))
    (st : list (string * bool) * list (string * option DataFrame)) : Prop :=
  dict_get st.1 t = Some (agrees t seen)
  /\ (agrees t seen = true ->
      match first_of t seen with
      | Some first => dict_get st.2 t = Some first
      | None => dict_get st.2 t = None
      end).

End Frames.
End Udash.

(* ===================================================================== *)
(** ** Reading a trace *)
(* ===================================================================== *)

(** The ports probed, in order, each with the outcome of its probe. *)
Fixpoint probes (tr : Trace) : list (Z * bool) :=
  match tr with
  | [] => []
  | SocketProbe p free :: tr' => (p, free) :: probes tr'
  | _ :: tr' => probes tr'
  end.

(** The values [random.randint] returned, in order. *)
Fixpoint draws (tr : Trace) : list Z :=
  match tr with
  | [] => []
  | Randint _ _ v :: tr' => v :: draws tr'
  | _ :: tr' => draws tr'
  end.

(** How often the session factory was invoked. *)
Fixpoint factory_calls (tr : Trace) : nat :=
  match tr with
  | [] => 0
  | GenerateApp _ _ _ _ :: tr' => S (factory_calls tr')
  | _ :: tr' => factory_calls tr'
  end.

(** The servers told to stop, in order. *)
Fixpoint stopped_servers (tr : Trace) : list Server :=
  match tr with
  | [] => []
  | ServerStop srv :: tr' => srv :: stopped_servers tr'
  | _ :: tr' => stopped_servers tr'
  end.

(** The status line in force: that of the last [start_response] call the
    server accepted. *)
Fixpoint response_status_from (cur : option string) (tr : Trace) : option string :=
  match tr with
  | [] => cur
  | StartResponse status _ true :: tr' => response_status_from (Some status) tr'
  | _ :: tr' => response_status_from cur tr'
  end.

Definition response_status (tr : Trace) : option string :=
  response_status_from None tr.

(** [m] leaves the object it runs on as it found it, whatever it returns. *)
Definition preserves {O A} (m : M O A) : Prop :=
  forall o tr, (m o tr).1.2 = o.

(** The two [_log.debug] lines every request starts with. *)
Definition request_log (environ : Environ) : Trace :=
  [Log DEBUG ("PATH INFO  : " +:+ default "" (environ !! "PATH_INFO"));
   Log DEBUG ("SCRIPT NAME: " +:+ default "" (environ !! "SCRIPT_NAME"))].

Arguments request_log : simpl never.

Definition status_500 : string := "500 INTERNAL SERVER ERROR".
Definition headers_500 : Headers := [("Content-Type", "text/plain")].

(** Whether the server takes a [start_response] call after the events [tr]. *)
Definition accepts `{Externals} (tr : Trace) (status : string) (headers : Headers)
  : bool :=
  match wsgi_start_response tr status headers with
  | None => true
  | Some _ => false
  end.

(* ===================================================================== *)
(** ** The vocabulary of the statements *)
(* ===================================================================== *)

(** The identifier a request path resolves to (lines 264-265): group 1 of
    the first match of the application pattern, when the pool has it. *)
Definition resolve (self : DispatcherApp.t) (path_info : string) : option string :=
  match Re.search (DispatcherApp.app_pattern self) path_info with
  | Some m =>
      if dict_contains (DispatcherApp.pool self) (Re.group m 1)
      then Some (Re.group m 1) else None
  | None => None
  end.

Definition is_control_path (path_info : string) : bool :=
  String.eqb path_info DispatcherApp.root_path
  || String.eqb path_info DispatcherApp.shutdown_path
  || String.eqb path_info DispatcherApp.favicon_path.

Definition status_400 : string := "400 BAD REQUEST ERROR".

(** The path prefix [register] hands to the session factory. *)
Definition ctx_path (self : DispatcherApp.t) (ctx_id : string) : string :=
  match DispatcherApp.base_url self with
  | None => "/" +:+ ctx_id +:+ "/"
  | Some b => "/" +:+ b +:+ "/" +:+ ctx_id +:+ "/"
  end.

Definition in_candidate_range (pb : Z * bool) : Prop := (7002 <= pb.1 <= 7999)%Z.
Definition probe_failed (pb : Z * bool) : Prop := pb.2 = false.

(** What the allocation of a port did, read off the events [evs] it added:
    the first probe was for 7001, every later probe was for a port of
    7002..7999 that [random.randint] had just drawn, there were ten probes at
    most, a manager that came out of it has the port of the last probe, the
    one probe that succeeded, and an error that came out of it is the
    [RuntimeError] raised after ten failed probes. *)
Definition allocated `{Externals} (base_url : option string)
    (use_relative_links : bool) (init : M unit AppRunner.t) (tr : Trace) : Prop :=
  exists res evs,
    init tt tr = (res, tt, tr ++ evs)
    /\ (exists free rest,
          probes evs = (7001%Z, free) :: rest
          /\ Forall in_candidate_range rest
          /\ map fst rest `prefix_of` draws evs)
    /\ length (probes evs) <= AppRunner.max_attempts
    /\ AppRunner.max_attempts = 10
    /\ match res with
       | Ok self =>
           AppRunner.ip self = "127.0.0.1"
           /\ AppRunner.base_url self = base_url
           /\ AppRunner.use_relative_links self = use_relative_links
           /\ AppRunner._thread self = None
           /\ exists failed,
                probes evs = failed ++ [(AppRunner.port self, true)]
                /\ Forall probe_failed failed
       | Raise e =>
           e = RuntimeError AppRunner.no_port_msg
           /\ length (probes evs) = AppRunner.max_attempts
           /\ Forall probe_failed (probes evs)
       end
    /\ ((forall tr' p, socket_probe tr' p = false) ->
        res = Raise (RuntimeError AppRunner.no_port_msg)).

(* ===================================================================== *)
(** ** A scripted world for the worked examples *)
(* ===================================================================== *)

(** A session application that answers every request with its own prefix
    followed by the path it was handed. *)
Definition echo_app (prefix : string) : App :=
  fun environ _ =>
    (Ok [bytes_literal (prefix +:+ default "" (environ !! "PATH_INFO"))],
     [StartResponse "200 OK" [("Content-Type", "text/html")] true]).

Definition icon_bytes : bytes := [x00; x00; x01; x00].

(** Port 7001 is taken and every other port is free; the server takes every
    status line; the icon is where the package keeps it; [requests] gets
    through; the background thread never dies. *)
Definition scripted_world : Externals := {|
  wsgi_start_response := fun _ _ _ => None;
  wsgi_server_stop := fun _ _ => None;
  wsgi_server_new := fun _ _ _ => Ok 1%nat;
  wsgi_serve_forever := fun _ _ => None;
  open_read := fun _ path =>
    if String.eqb path "/pkg/interpret/visual/assets/favicon.ico"
    then Ok icon_bytes else Raise (OSError path);
  generate_app := fun _ _ _ prefix _ => Ok (mkDash (echo_app prefix) false false);
  socket_probe := fun _ p => negb (Z.eqb p 7001);
  random_randint := fun tr lo hi => Z.max lo (Z.min hi (lo + Z.of_nat (length tr)));
  random_randint_range := fun tr lo hi Hle =>
    conj (Z.le_max_l lo _)
         (Z.max_lub lo _ hi Hle (Z.le_min_l hi (lo + Z.of_nat (length tr))));
  requests_post := fun _ _ => inl "<Response [200]>";
  requests_get := fun _ _ => inl "<Response [200]>";
  thread_spawn := fun tr => length tr;
  thread_is_alive := fun _ _ => true;
  package_dir := "/pkg/interpret/visual"
|}.

(** A GET for [path]. *)
Definition get_request (path : string) : Environ :=
  <["PATH_INFO" := path]> (<["REQUEST_METHOD" := "GET"]> ∅).

(** A dispatcher with base prefix [b] whose server is running as handle 1. *)
Definition serving (b : option string) : DispatcherApp.t :=
  DispatcherApp.mk b false "/pkg/interpret/visual/assets/favicon.ico" []
    (<["server" := 1%nat]> ∅)
    (default Re.Eps (DispatcherApp.compile_app_pattern b)).

Definition ctx_A : PyObject := mkObj 140523 "explanation A".

(** The constructor call [AppRunner()] in the scripted world. *)
Definition scripted_init : M unit AppRunner.t :=
  from_option (fun m => m) (raise (Exception "base_url"))
    (AppRunner.__init__ (H := scripted_world) None None false).

(** The dispatcher after [register(ctx_A)], under the base prefix [b]. *)
Definition registered_A : DispatcherApp.t :=
  (DispatcherApp.register (H := scripted_world) ctx_A None (serving (Some "b")) []).1.2.

(* ===================================================================== *)
(** ** More vocabulary: routing, links, the lifecycle *)
(* ===================================================================== *)

(** A decimal digit. *)
Definition is_digit (c : ascii) : bool :=
  (48 <=? N_of_ascii c)%N && (N_of_ascii c <=? 57)%N.

Fixpoint all_digits (s : string) : bool :=
  match s with
  | EmptyString => true
  | String c s' => is_digit c && all_digits s'
  end.

(** Whether lines 274-280 rewrite the path of a request that is handed on. *)
Definition adds_base (self : DispatcherApp.t) (path_info : string) : bool :=
  DispatcherApp.truthy (DispatcherApp.base_url self)
  && negb (String.prefix ("/" +:+ default "" (DispatcherApp.base_url self)) path_info).

(** The environ a session application is called with. *)
Definition forwarded_environ (self : DispatcherApp.t) (environ : Environ)
    (path_info : string) : Environ :=
  if adds_base self path_info
  then <["PATH_INFO" := "/" +:+ default "" (DispatcherApp.base_url self) +:+ path_info]>
         environ
  else environ.

Definition rewrite_log (self : DispatcherApp.t) (path_info : string) : Trace :=
  if adds_base self path_info
  then [Log INFO "No base url in path. Rewrite to include in path."]
  else [].

(** The answer to a request that was handed to [app] after the events
    [tr]: what [app] returns, or the 500 answer when it raises. *)
Definition delegated `{Externals} (app : App) (environ : Environ)
    (self : DispatcherApp.t) (tr : Trace) : result Body * DispatcherApp.t * Trace :=
  match app environ tr with
  | (Ok body, evs) => (Ok body, self, tr ++ evs)
  | (Raise e, evs) =>
      let tr' := tr ++ evs ++ [Log ERROR (exn_str e)] in
      (Ok DispatcherApp.internal_error_body, self,
       tr' ++ [StartResponse status_500 headers_500 (accepts tr' status_500 headers_500)])
  end.

(** [start_url] of [display_link]. *)
Definition start_url (self : AppRunner.t) : string :=
  if AppRunner.use_relative_links self then "/"
  else "http://" +:+ AppRunner.ip self +:+ ":" +:+ pretty (AppRunner.port self) +:+ "/".

(** The URLs [requests.post] was called with, in order. *)
Fixpoint posts (tr : Trace) : list string :=
  match tr with
  | [] => []
  | HttpPost url :: tr' => url :: posts tr'
  | _ :: tr' => posts tr'
  end.

(** The line of the status page for the session [key]. *)
Definition session_item (self : DispatcherApp.t) (key : string) : string :=
  "<li><a href=" +:+ dq +:+ ctx_path self key +:+ dq +:+ ">" +:+ key +:+ "</a></li>".

(** The scripted world with some of its parts failing: a session factory
    that rejects its options, a background thread that ends when it is
    joined, a network that lets no request through. *)
Definition scripted_variant (factory_fails thread_ends offline : bool) : Externals := {|
  wsgi_start_response := fun _ _ _ => None;
  wsgi_server_stop := fun _ _ => None;
  wsgi_server_new := fun _ _ _ => Ok 1%nat;
  wsgi_serve_forever := fun _ _ => None;
  open_read := fun _ path =>
    if String.eqb path "/pkg/interpret/visual/assets/favicon.ico"
    then Ok icon_bytes else Raise (OSError path);
  generate_app := fun _ _ _ prefix _ =>
    if factory_fails
    then Raise (Exception "share_tables option must be True|False|None or dict.")
    else Ok (mkDash (echo_app prefix) false false);
  socket_probe := fun _ p => negb (Z.eqb p 7001);
  random_randint := fun tr lo hi => Z.max lo (Z.min hi (lo + Z.of_nat (length tr)));
  random_randint_range := fun tr lo hi Hle =>
    conj (Z.le_max_l lo _)
         (Z.max_lub lo _ hi Hle (Z.le_min_l hi (lo + Z.of_nat (length tr))));
  requests_post := fun _ _ =>
    if offline then inr "Connection refused" else inl "<Response [200]>";
  requests_get := fun _ _ =>
    if offline then inr "Connection refused" else inl "<Response [200]>";
  thread_spawn := fun tr => length tr;
  thread_is_alive := fun _ _ => negb thread_ends;
  package_dir := "/pkg/interpret/visual"
|}.

(** A manager on 127.0.0.1:7001 with the base prefix [b] that holds the
    dispatcher [registered_A]. *)
Definition runner_A (relative : bool) (th : option Thread) : AppRunner.t :=
  AppRunner.mk registered_A (Some "b") relative th "127.0.0.1" 7001.

Definition ctx_B : PyObject := mkObj 140777 "explanation B".

(** Frames as lists of cells, a cell a number or something that is none
    (a date, say), for the worked examples of [Udash]: preparing a frame
    raises on a cell that does not multiply, as [df *= 1] does, and frames
    are compared cell by cell. *)
Definition rows_prepare (d : list (option Z)) : result (list (option Z)) :=
  if forallb (fun cell : option Z => bool_decide (cell <> None)) d then Ok d
  else Raise (Exception "unsupported operand type(s) for *").

Definition rows_equal (d1 d2 : list (option Z)) : bool := bool_decide (d1 = d2).

(** Dash applications by the prefixes they were generated with. *)
Definition dash_full (requests_pathname_prefix routes_pathname_prefix : option string)
  : result (option string * option string) :=
  Ok (requests_pathname_prefix, routes_pathname_prefix).

Definition dash_mini
    (item : Udash.Explanation (DataFrame := list (option Z)) * option (list (option Z)))
    (url_base_pathname requests_pathname_prefix routes_pathname_prefix : option string)
  : result (option string * option string) :=
  Ok (requests_pathname_prefix, routes_pathname_prefix).

(** What the constructors establish between a manager and its dispatcher:
    the same base prefix and flag on both, and the pattern of the
    dispatcher compiled from that prefix. *)
Definition consistent (self : AppRunner.t) : Prop :=
  AppRunner.base_url self = DispatcherApp.base_url (AppRunner.app self)
  /\ AppRunner.use_relative_links self
     = DispatcherApp.use_relative_links (AppRunner.app self)
  /\ DispatcherApp.compile_app_pattern (DispatcherApp.base_url (AppRunner.app self))
     = Some (DispatcherApp.app_pattern (AppRunner.app self)).

(** A base prefix that stands for itself in the pattern of line 209, where
    it is put unescaped: none, or a text without regex metacharacters other
    than the dot. *)
Definition plain_base (base : option string) : bool :=
  match base with
  | None => true
  | Some b =>
      forallb (fun c => Ascii.eqb c "."%char || negb (Re.is_metachar c))
        (list_ascii_of_string b)
  end.

(* ===================================================================== *)
(** ** Threads: [register] step by step, and interleavings *)
(* ===================================================================== *)

(** A thread between two of its steps: finished, or with a next step, which
    runs without interruption and gives the rest of the thread. *)
#[warnings="-register-all"] Inductive proc (O : Type) : Type :=
| Done
| Step (m : M O (proc O)).
Arguments Done {O}.
Arguments Step {O} m.

(** Two threads on one object, run step by step as [schedule] says: [true]
    gives the step to the first thread, [false] to the second, and a
    finished thread lets its turn pass.  An exception ends the thread it is
    raised in; what the thread has written stays.  The result is what is
    left of the two threads, the object and the trace. *)
Fixpoint interleave {O} (schedule : list bool) (p q : proc O) (o : O) (tr : Trace)
  : proc O * proc O * O * Trace :=
  match schedule with
  | [] => (p, q, o, tr)
  | first :: schedule' =>
      match (if first : bool then p else q) with
      | Done => interleave schedule' p q o tr
      | Step m =>
          match m o tr with
          | (r, o', tr') =>
              let rest := match r with Ok rest => rest | Raise _ => Done end in
              if first then interleave schedule' rest q o' tr'
              else interleave schedule' p rest o' tr'
          end
      end
  end.

(** A thread that only reads: each of its steps leaves the object as it
    is. *)
Inductive reader {O} : proc O -> Prop :=
| reader_Done : reader Done
| reader_Step (m : M O (proc O)) :
    preserves m ->
    (forall o tr rest o' tr', m o tr = (Ok rest, o', tr') -> reader rest) ->
    reader (Step m).

Section RegisterSteps.
Context `{Externals}.

(** [DispatcherApp.register], cut where another thread can run in between
    with a different outcome.  Lines 215-216: the check. *)
Definition register_check (ctx : PyObject) : M DispatcherApp.t bool :=
  let ctx_id := DispatcherApp.obj_id ctx in
  self <- get ;;
  ret (negb (dict_contains (DispatcherApp.pool self) ctx_id)).

(** Lines 217-231: the application is generated and completed; the
    dispatcher is read, not written. *)
Definition register_build (ctx : PyObject) (share_tables : option PyObject)
  : M DispatcherApp.t DashApp :=
  let ctx_id := DispatcherApp.obj_id ctx in
  self <- get ;;
  log INFO ("Creating App Entry: " +:+ ctx_id) ;;;
  let ctx_path :=
    match DispatcherApp.base_url self with
    | None => "/" +:+ ctx_id +:+ "/"
    | Some b => "/" +:+ b +:+ "/" +:+ ctx_id +:+ "/"
    end in
  app <- oracle (fun tr => generate_app tr ctx share_tables ctx_path ctx_path)
           (GenerateApp ctx share_tables ctx_path ctx_path) ;;
  let app := mkDash (server app) true (scripts_serve_locally app) in
  let app := mkDash (server app) (css_serve_locally app) true in
  ret app.

(** Line 233: the one store, into the pool as it is then. *)
Definition register_store (ctx : PyObject) (app : DashApp) : M DispatcherApp.t unit :=
  let ctx_id := DispatcherApp.obj_id ctx in
  self <- get ;;
  put (DispatcherApp.set_pool
         (dict_set (DispatcherApp.pool self) ctx_id (server app)) self).

(** Line 235. *)
Definition register_found (ctx : PyObject) : M DispatcherApp.t unit :=
  log DEBUG ("App Entry found: " +:+ DispatcherApp.obj_id ctx).

(** [register] as a thread, by what it has left to do. *)
Definition register_storing (ctx : PyObject) (app : DashApp) : proc DispatcherApp.t :=
  Step (register_store ctx app ;;; ret Done).

Definition register_building (ctx : PyObject) (share_tables : option PyObject)
  : proc DispatcherApp.t :=
  Step (app <- register_build ctx share_tables ;; ret (register_storing ctx app)).

Definition register_finding (ctx : PyObject) : proc DispatcherApp.t :=
  Step (register_found ctx ;;; ret Done).

Definition register_thread (ctx : PyObject) (share_tables : option PyObject)
  : proc DispatcherApp.t :=
  Step (absent <- register_check ctx ;;
        ret (if absent : bool then register_building ctx share_tables
             else register_finding ctx)).

(** A request as a thread of one step. *)
Definition request_thread (environ : Environ) : proc DispatcherApp.t :=
  Step (DispatcherApp.__call__ environ ;;; ret Done).

(** What a lookup can find of a registration of [ctx] on the dispatcher
    [self]: the dispatcher as it was, or with the one entry added, made of
    an application the factory returned. *)
Definition whole_entry (ctx : PyObject) (share_tables : option PyObject)
    (self s : DispatcherApp.t) : Prop :=
  let ctx_id := DispatcherApp.obj_id ctx in
  s = self
  \/ exists tr1 dash,
       generate_app tr1 ctx share_tables (ctx_path self ctx_id) (ctx_path self ctx_id)
       = Ok dash
       /\ dict_get (DispatcherApp.pool self) ctx_id = None
       /\ s = DispatcherApp.set_pool
                (DispatcherApp.pool self ++ [(ctx_id, server dash)]) self.

(** How far the thread [p] of a registration of [ctx] on [self] has come,
    with the dispatcher [s] as it is then. *)
Definition register_stage (ctx : PyObject) (share_tables : option PyObject)
    (self : DispatcherApp.t) (p : proc DispatcherApp.t) (s : DispatcherApp.t) : Prop :=
  let ctx_id := DispatcherApp.obj_id ctx in
  (p = register_thread ctx share_tables /\ s = self)
  \/ (p = register_building ctx share_tables /\ s = self
      /\ dict_get (DispatcherApp.pool self) ctx_id = None)
  \/ (p = register_finding ctx /\ s = self)
  \/ (exists tr1 dash,
        generate_app tr1 ctx share_tables
          (ctx_path self ctx_id) (ctx_path self ctx_id) = Ok dash
        /\ dict_get (DispatcherApp.pool self) ctx_id = None
        /\ p = register_storing ctx (mkDash (server dash) true true)
        /\ s = self)
  \/ (p = Done /\ whole_entry ctx share_tables self s).

End RegisterSteps.

(* ===================================================================== *)
(** ** Generic facts *)
(* ===================================================================== *)

Lemma preserves_ret {O A} (a : A) : preserves (ret (O := O) a).
Proof. intros o tr. reflexivity. Qed.

Lemma preserves_raise {O A} (e : exn) : preserves (raise (O := O) (A := A) e).
Proof. intros o tr. reflexivity. Qed.

Lemma preserves_get {O} : preserves (get (O := O)).
Proof. intros o tr. reflexivity. Qed.

Lemma preserves_emit {O} (ev : event) : preserves (emit (O := O) ev).
Proof. intros o tr. reflexivity. Qed.

Lemma preserves_log {O} lvl msg : preserves (log (O := O) lvl msg).
Proof. apply preserves_emit. Qed.

Lemma preserves_oracle {O A} (f : Trace -> result A) ev :
  preserves (oracle (O := O) f ev).
Proof. intros o tr. reflexivity. Qed.

Lemma preserves_bind {O A B} (m : M O A) (k : A -> M O B) :
  preserves m -> (forall a, preserves (k a)) -> preserves (bind m k).
Proof.
  intros Hm Hk o tr. unfold bind.
  specialize (Hm o tr).
  destruct (m o tr) as [[[a|e] o'] tr']; simpl in *; subst o'.
  - apply Hk.
  - reflexivity.
Qed.

Lemma preserves_try_except {O A} (m : M O A) catches (h : exn -> M O A) :
  preserves m -> (forall e, preserves (h e)) -> preserves (try_except m catches h).
Proof.
  intros Hm Hh o tr. unfold try_except.
  specialize (Hm o tr).
  destruct (m o tr) as [[[a|e] o'] tr']; simpl in *; subst o'.
  - reflexivity.
  - destruct (catches e); [apply Hh | reflexivity].
Qed.

Lemma preserves_getitem {O V} (d : gmap string V) key :
  preserves (getitem (O := O) d key).
Proof.
  unfold getitem. destruct (d !! key); [apply preserves_ret | apply preserves_raise].
Qed.

Lemma preserves_dict_getitem {O V} (d : list (string * V)) key :
  preserves (dict_getitem (O := O) d key).
Proof.
  unfold dict_getitem.
  destruct (dict_get d key); [apply preserves_ret | apply preserves_raise].
Qed.

Lemma preserves_start_response `{Externals} {O} status headers :
  preserves (start_response (O := O) status headers).
Proof.
  intros o tr. unfold start_response.
  destruct (wsgi_start_response tr status headers); reflexivity.
Qed.

Lemma preserves_call_app `{Externals} {O} app environ :
  preserves (call_app (O := O) app environ).
Proof.
  intros o tr. unfold call_app. destruct (app environ tr). reflexivity.
Qed.

Create HintDb frame.
#[global] Hint Resolve preserves_ret preserves_raise preserves_get preserves_emit
  preserves_log preserves_oracle preserves_getitem preserves_dict_getitem
  preserves_start_response preserves_call_app : frame.

(** Splits a sequence of statements into its statements. *)
Ltac frame :=
  repeat first
    [ apply preserves_bind; [| intros ?]
    | apply preserves_try_except; [| intros ?]
    | solve [eauto with frame] ].

Lemma dict_get_absent_set {V} (d : list (string * V)) key v :
  dict_get d key = None -> dict_set d key v = d ++ [(key, v)].
Proof.
  induction d as [|[k w] d IH]; simpl; [reflexivity|].
  destruct (String.eqb k key); [discriminate|].
  intros Hd. rewrite IH by assumption. reflexivity.
Qed.

Lemma dict_get_set_eq {V} (d : list (string * V)) key v :
  dict_get (dict_set d key v) key = Some v.
Proof.
  induction d as [|[k w] d IH]; simpl.
  - rewrite String.eqb_refl. reflexivity.
  - destruct (String.eqb k key) eqn:E; simpl; rewrite E; [reflexivity | exact IH].
Qed.

Lemma encode_utf8_app (s1 s2 : string) :
  encode_utf8 (s1 +:+ s2) = encode_utf8 s1 ++ encode_utf8 s2.
Proof.
  induction s1 as [|c s1 IH]; simpl; [reflexivity|].
  rewrite IH. rewrite <- app_assoc. reflexivity.
Qed.

Lemma encode_utf8_ascii (s : string) :
  is_ascii s = true -> encode_utf8 s = bytes_literal s.
Proof.
  unfold is_ascii, bytes_literal.
  induction s as [|c s IH]; simpl; [reflexivity|].
  intros Hs. apply andb_prop in Hs as [Hc Hs].
  unfold utf8_char. rewrite Hc. simpl. rewrite IH by assumption. reflexivity.
Qed.

(* ===================================================================== *)
(** ** The dispatcher: what a request does *)
(* ===================================================================== *)

Section Dispatcher.
Context `{Externals}.

Lemma route_session_preserves environ path_info :
  preserves (DispatcherApp.route_session environ path_info).
Proof.
  unfold DispatcherApp.route_session.
  apply preserves_bind; [apply preserves_get | intros self].
  destruct (Re.search _ _) as [m|]; [| frame].
  destruct (dict_get _ _); [| frame].
  apply preserves_bind; [frame | intros _].
  apply preserves_bind; [frame | intros app].
  apply preserves_bind; [| intros env'; frame].
  destruct (DispatcherApp.truthy _); [| frame].
  apply preserves_bind; [frame | intros p].
  destruct (negb _); frame.
Qed.

Lemma dispatch_preserves environ path_info :
  preserves (DispatcherApp.dispatch environ path_info).
Proof.
  unfold DispatcherApp.dispatch, server_stop, read_binary_file.
  destruct (String.eqb path_info DispatcherApp.root_path); [frame|].
  destruct (String.eqb path_info DispatcherApp.shutdown_path); [frame|].
  destruct (String.eqb path_info DispatcherApp.favicon_path); [frame|].
  apply route_session_preserves.
Qed.

Lemma on_exception_run e (self : DispatcherApp.t) tr :
  DispatcherApp.on_exception e self tr
  = (Ok DispatcherApp.internal_error_body, self,
     tr ++ [Log ERROR (exn_str e);
            StartResponse status_500 headers_500
              (accepts (tr ++ [Log ERROR (exn_str e)]) status_500 headers_500)]).
Proof.
  unfold DispatcherApp.on_exception, bind, log, emit, try_except, start_response,
    ret, accepts, status_500, headers_500.
  destruct (wsgi_start_response _ _ _); simpl;
    rewrite <- app_assoc; reflexivity.
Qed.

Lemma call_unfold environ (self : DispatcherApp.t) tr :
  DispatcherApp.__call__ environ self tr
  = try_except
      (DispatcherApp.dispatch environ (default "" (environ !! "PATH_INFO")))
      (fun _ => true) DispatcherApp.on_exception self (tr ++ request_log environ).
Proof.
  unfold DispatcherApp.__call__, bind, log, emit, request_log. simpl.
  rewrite <- app_assoc. reflexivity.
Qed.

Lemma response_status_from_app cur tr1 tr2 :
  response_status_from cur (tr1 ++ tr2)
  = response_status_from (response_status_from cur tr1) tr2.
Proof.
  revert cur. induction tr1 as [|ev tr1 IH]; intros cur; simpl; [reflexivity|].
  destruct ev; try apply IH. destruct accepted; apply IH.
Qed.

End Dispatcher.

(* ===================================================================== *)
(** ** The dispatcher: the claims *)
(* ===================================================================== *)

Section DispatcherClaims.
Context `{Externals}.

Lemma dispatch_not_control environ path_info :
  is_control_path path_info = false ->
  DispatcherApp.dispatch environ path_info
  = DispatcherApp.route_session environ path_info.
Proof.
  unfold is_control_path, DispatcherApp.dispatch. intros Hc.
  apply orb_false_elim in Hc as [Hc Hf]. apply orb_false_elim in Hc as [Hr Hs].
  rewrite Hr, Hs, Hf. reflexivity.
Qed.

Lemma route_session_unresolved environ path_info (self : DispatcherApp.t) tr :
  resolve self path_info = None ->
  DispatcherApp.route_session environ path_info self tr
  = (bind (log ERROR (DispatcherApp.unsupported_msg path_info))
       (fun _ => bind (start_response status_400 DispatcherApp.html_headers)
          (fun _ => ret [encode_utf8 (DispatcherApp.unsupported_msg path_info)])))
      self tr.
Proof.
  unfold resolve, DispatcherApp.route_session, dict_contains. intros Hr.
  unfold bind at 1. unfold get at 1.
  destruct (Re.search _ _) as [m|]; [| reflexivity].
  destruct (dict_get _ _); [discriminate | reflexivity].
Qed.

(** C9.  Handling a request, whatever its path and whatever comes of it (a
    control route, a delegated session, the 400 of an unregistered
    identifier, the 500 of an error), returns the dispatcher object as it
    found it: the pool is the same pool, and so is the rest. *)
Theorem dispatch_leaves_registry (environ : Environ) (self : DispatcherApp.t)
    (tr : Trace) :
  (DispatcherApp.__call__ environ self tr).1.2 = self
  /\ DispatcherApp.pool (DispatcherApp.__call__ environ self tr).1.2
     = DispatcherApp.pool self.
Proof.
  assert (Hp : preserves (DispatcherApp.__call__ environ)).
  { unfold DispatcherApp.__call__.
    apply preserves_bind; [frame | intros _].
    apply preserves_bind; [frame | intros _].
    apply preserves_try_except; [apply dispatch_preserves | intros e].
    unfold DispatcherApp.on_exception. frame. }
  split; [apply Hp | rewrite Hp; reflexivity].
Qed.

(** C5.  A request always returns.  What the body of the [try] returns is
    returned as it is; when it raises [e], the request still returns: the
    error is logged, [start_response] is called with the 500 status line
    (a refusal of that call is suppressed), and the body is the one fixed
    message, the same for every [e].  Once the server has taken the call,
    500 is the status line in force. *)
Theorem uncaught_error_becomes_500 (environ : Environ) (self : DispatcherApp.t)
    (tr : Trace) :
  let path_info := default "" (environ !! "PATH_INFO") in
  match DispatcherApp.dispatch environ path_info self (tr ++ request_log environ) with
  | (Ok body, self1, tr1) =>
      DispatcherApp.__call__ environ self tr = (Ok body, self1, tr1)
  | (Raise e, self1, tr1) =>
      let taken := accepts (tr1 ++ [Log ERROR (exn_str e)]) status_500 headers_500 in
      let tr2 := tr1 ++ [Log ERROR (exn_str e);
                         StartResponse status_500 headers_500 taken] in
      DispatcherApp.__call__ environ self tr
      = (Ok DispatcherApp.internal_error_body, self1, tr2)
      /\ DispatcherApp.internal_error_body
         = [bytes_literal
              "Internal Server Error caught by Dispatcher. See logs if available."]
      /\ (if taken then response_status tr2 = Some status_500 else True)
  end.
Proof.
  intros path_info. rewrite call_unfold. fold path_info. unfold try_except.
  destruct (DispatcherApp.dispatch environ path_info self (tr ++ request_log environ))
    as [[[body|e] self1] tr1]; [reflexivity|].
  simpl. rewrite on_exception_run. split; [reflexivity|]. split; [reflexivity|].
  destruct (accepts _ _ _); [| exact I].
  unfold response_status. rewrite response_status_from_app. reflexivity.
Qed.

(** C4.  A request whose path is none of the three control paths and
    resolves to no registered identifier (no match, or a first segment the
    pool does not have) is answered 400, and the body is the UTF-8 text
    "URL not supported: " followed by the request path itself (byte for byte
    the path when it is ASCII).  The server is assumed to take the status
    line. *)
Theorem unknown_identifier_400 (environ : Environ) (self : DispatcherApp.t)
    (tr : Trace) :
  let path_info := default "" (environ !! "PATH_INFO") in
  let msg := "URL not supported: " +:+ path_info in
  let evs := request_log environ ++ [Log ERROR msg] in
  is_control_path path_info = false ->
  resolve self path_info = None ->
  accepts (tr ++ evs) status_400 DispatcherApp.html_headers = true ->
  DispatcherApp.__call__ environ self tr
  = (Ok [encode_utf8 msg], self,
     tr ++ evs ++ [StartResponse status_400 DispatcherApp.html_headers true])
  /\ response_status (evs ++ [StartResponse status_400 DispatcherApp.html_headers true])
     = Some "400 BAD REQUEST ERROR"
  /\ encode_utf8 msg = encode_utf8 "URL not supported: " ++ encode_utf8 path_info
  /\ (is_ascii path_info = true -> encode_utf8 path_info = bytes_literal path_info).
Proof.
  intros path_info msg evs Hc Hr Hacc.
  split; [| split; [| split]].
  - rewrite call_unfold. fold path_info.
    rewrite dispatch_not_control by assumption.
    unfold try_except. rewrite route_session_unresolved by assumption.
    unfold bind, log, emit, start_response, ret, DispatcherApp.unsupported_msg.
    fold msg. unfold accepts in Hacc. unfold evs in *.
    rewrite <- ?app_assoc in *. simpl in *.
    destruct (wsgi_start_response _ _ _); [discriminate|].
    reflexivity.
  - unfold response_status. rewrite response_status_from_app. reflexivity.
  - apply encode_utf8_app.
  - apply encode_utf8_ascii.
Qed.

(** C6.  The shutdown route looks at the path alone.  Whatever the request
    method (GET as well as POST) and whoever the requester, a request for
    [/shutdown] to a dispatcher whose server is configured stops that server
    and is answered 200 with the body [b"Shutdown"].  The server is assumed
    to stop without raising and to take the status line. *)
Theorem shutdown_ignores_method (meth remote : string) (environ : Environ)
    (self : DispatcherApp.t) (srv : Server) (tr : Trace) :
  let environ' := <["REQUEST_METHOD" := meth]> (<["REMOTE_ADDR" := remote]> environ) in
  let tr1 := tr ++ request_log environ' ++ [Log INFO "Shutting down."] in
  environ !! "PATH_INFO" = Some DispatcherApp.shutdown_path ->
  DispatcherApp.config self !! "server" = Some srv ->
  wsgi_server_stop tr1 srv = None ->
  accepts (tr1 ++ [ServerStop srv]) "200 OK" DispatcherApp.html_headers = true ->
  DispatcherApp.__call__ environ' self tr
  = (Ok [bytes_literal "Shutdown"], self,
     tr1 ++ [ServerStop srv; StartResponse "200 OK" DispatcherApp.html_headers true])
  /\ stopped_servers (request_log environ' ++
       [Log INFO "Shutting down."; ServerStop srv;
        StartResponse "200 OK" DispatcherApp.html_headers true]) = [srv].
Proof.
  intros environ' tr1 Hpath Hsrv Hstop Hacc.
  assert (Hp : default "" (environ' !! "PATH_INFO") = DispatcherApp.shutdown_path).
  { unfold environ'. rewrite !lookup_insert_ne by discriminate.
    rewrite Hpath. reflexivity. }
  split; [| reflexivity].
  rewrite call_unfold, Hp. unfold try_except, DispatcherApp.dispatch. simpl.
  unfold bind, log, emit, get, getitem, server_stop, oracle, start_response, ret.
  rewrite Hsrv. unfold ret. subst tr1. unfold accepts in Hacc.
  rewrite <- ?app_assoc in *. simpl in *.
  rewrite Hstop. simpl.
  destruct (wsgi_start_response _ _ _); [discriminate|].
  reflexivity.
Qed.

End DispatcherClaims.

(** Peels equal leading characters off an equation between a string with an
    unknown part [b] and a literal, until the two sides part. *)
Ltac peel Heq b :=
  repeat (destruct b as [|? b]; simpl in Heq;
          [ try discriminate Heq
          | first [ discriminate Heq | injection Heq as ? Heq ] ]).

Lemma prefixed_paths_not_control (b : string) :
  is_control_path ("/" +:+ b +:+ "/shutdown") = false
  /\ is_control_path ("/" +:+ b +:+ "/") = false
  /\ is_control_path ("/" +:+ b +:+ "/favicon.ico") = false.
Proof.
  unfold is_control_path, DispatcherApp.root_path, DispatcherApp.shutdown_path,
    DispatcherApp.favicon_path.
  repeat split; repeat (apply orb_false_intro);
    apply String.eqb_neq; intros Heq; simpl in Heq;
    injection Heq as Heq; peel Heq b.
Qed.

(** A text of the pattern fragment matches itself, in one way. *)
Lemma run_compile_text (b : string) : forall rb s g k,
  Re.compile_text b = Some rb -> Re.run rb (b +:+ s) g k = k s g.
Proof.
  induction b as [|c b IH]; intros rb s g k Hc.
  - injection Hc as <-. reflexivity.
  - cbn [Re.compile_text] in Hc.
    destruct (Re.compile_text b) as [r|] eqn:Hb; [| discriminate].
    change (String c b +:+ s) with (String c (b +:+ s)).
    destruct (Ascii.eqb c ".") eqn:Hdot.
    + injection Hc as <-. apply Ascii.eqb_eq in Hdot. subst c.
      cbn [Re.run]. change (Re.atom_matches Re.ADot ".") with true. cbv iota.
      apply IH. reflexivity.
    + destruct (Re.is_metachar c); [discriminate|]. injection Hc as <-.
      cbn [Re.run Re.atom_matches]. rewrite Ascii.eqb_refl. apply IH. reflexivity.
Qed.

(** Under any base prefix [b], the request path [/b/shutdown] is parsed as
    a session path whose identifier is the segment [shutdown]. *)
Lemma prefixed_shutdown_segment (b : string) (pat : Re.regex) :
  DispatcherApp.compile_app_pattern (Some b) = Some pat ->
  exists m,
    Re.search pat ("/" +:+ b +:+ "/shutdown") = Some m
    /\ Re.group m 1 = "shutdown".
Proof.
  unfold DispatcherApp.compile_app_pattern.
  destruct (Re.compile_text b) as [rb|] eqn:Hb; [| discriminate].
  intros Hpat. apply (inj Some) in Hpat. subst pat.
  eexists. split.
  - change ("/" +:+ b +:+ "/shutdown") with (String "/" (b +:+ "/shutdown")).
    cbn [Re.search Re.run Re.slash Re.atom_matches].
    rewrite Ascii.eqb_refl.
    rewrite (run_compile_text b rb) by assumption.
    vm_compute. reflexivity.
  - vm_compute. reflexivity.
Qed.

Lemma prefixed_shutdown_unresolved (b : string) (self : DispatcherApp.t) :
  DispatcherApp.compile_app_pattern (Some b) = Some (DispatcherApp.app_pattern self) ->
  dict_get (DispatcherApp.pool self) "shutdown" = None ->
  resolve self ("/" +:+ b +:+ "/shutdown") = None.
Proof.
  intros Hpat Hpool. unfold resolve, dict_contains.
  destruct (prefixed_shutdown_segment b _ Hpat) as (m & -> & ->).
  rewrite Hpool. reflexivity.
Qed.

Section ControlPaths.
Context `{Externals}.

(** C3, as the code has it.  The three control paths are fixed absolute
    paths, the same for every base prefix the dispatcher is configured with:
    [/shutdown] stops the server and is answered 200 with [b"Shutdown"], [/]
    is answered 200 with the status page, [/favicon.ico] is answered 200 with
    the icon.  The same paths under a prefix [b] are no control paths; they
    go to session routing.  Assumed: a configured server that stops without
    raising, a server that takes the status lines, a readable icon. *)
Theorem control_paths_are_absolute (environ : Environ) (self : DispatcherApp.t)
    (srv : Server) (icon : bytes) (tr : Trace) :
  DispatcherApp.config self !! "server" = Some srv ->
  (forall tr', wsgi_server_stop tr' srv = None) ->
  (forall tr' status headers, wsgi_start_response tr' status headers = None) ->
  (forall tr', open_read tr' (DispatcherApp.favicon_res self) = Ok icon) ->
  (environ !! "PATH_INFO" = Some "/shutdown" ->
   DispatcherApp.__call__ environ self tr
   = (Ok [bytes_literal "Shutdown"], self,
      tr ++ request_log environ ++
      [Log INFO "Shutting down."; ServerStop srv;
       StartResponse "200 OK" DispatcherApp.html_headers true]))
  /\ (environ !! "PATH_INFO" = Some "/" ->
      DispatcherApp.__call__ environ self tr
      = (Ok [encode_utf8 (DispatcherApp._root_content self)], self,
         tr ++ request_log environ ++
         [Log INFO "Root path requested.";
          StartResponse "200 OK" DispatcherApp.html_headers true]))
  /\ (environ !! "PATH_INFO" = Some "/favicon.ico" ->
      DispatcherApp.__call__ environ self tr
      = (Ok [icon], self,
         tr ++ request_log environ ++
         [Log INFO "Favicon requested.";
          StartResponse "200 OK" [("content-type", "image/x-icon")] true;
          FileRead (DispatcherApp.favicon_res self)]))
  /\ (forall b path,
        In path ["/" +:+ b +:+ "/shutdown"; "/" +:+ b +:+ "/";
                 "/" +:+ b +:+ "/favicon.ico"] ->
        DispatcherApp.dispatch environ path
        = DispatcherApp.route_session environ path).
Proof.
  intros Hsrv Hstop Hsr Hicon.
  split; [| split; [| split]].
  - intros Hp. rewrite call_unfold, Hp.
    unfold try_except, DispatcherApp.dispatch. simpl.
    unfold bind, log, emit, get, getitem, server_stop, oracle, start_response, ret.
    rewrite Hsrv. unfold ret. rewrite Hstop. simpl. rewrite Hsr.
    rewrite <- ?app_assoc. reflexivity.
  - intros Hp. rewrite call_unfold, Hp.
    unfold try_except, DispatcherApp.dispatch. simpl.
    unfold bind, log, emit, get, start_response, ret.
    rewrite Hsr. rewrite <- ?app_assoc. reflexivity.
  - intros Hp. rewrite call_unfold, Hp.
    unfold try_except, DispatcherApp.dispatch. simpl.
    unfold bind, log, emit, get, read_binary_file, oracle, start_response, ret.
    rewrite Hsr, Hicon. rewrite <- ?app_assoc. reflexivity.
  - intros b path Hin. apply dispatch_not_control.
    destruct (prefixed_paths_not_control b) as (Hs & Hr & Hf).
    simpl in Hin. destruct Hin as [<-|[<-|[<-|[]]]]; assumption.
Qed.

End ControlPaths.

(** C3, the claim as stated, refuted.  With the base prefix [b], a server
    configured and everything willing, the request [/b/shutdown] stops no
    server and is answered 400; so are [/b/] and [/b/favicon.ico]. *)
Lemma prefixed_control_paths_refused :
  let self := serving (Some "b") in
  let refused path :=
    (Ok [encode_utf8 ("URL not supported: " +:+ path)], self,
     request_log (get_request path) ++
     [Log ERROR ("URL not supported: " +:+ path);
      StartResponse "400 BAD REQUEST ERROR" DispatcherApp.html_headers true]) in
  DispatcherApp.__call__ (H := scripted_world) (get_request "/b/shutdown") self []
  = refused "/b/shutdown"
  /\ stopped_servers
       (DispatcherApp.__call__ (H := scripted_world)
          (get_request "/b/shutdown") self []).2 = []
  /\ (DispatcherApp.__call__ (H := scripted_world) (get_request "/b/shutdown") self []).1.1
     <> Ok [bytes_literal "Shutdown"]
  /\ DispatcherApp.__call__ (H := scripted_world) (get_request "/b/") self []
     = refused "/b/"
  /\ DispatcherApp.__call__ (H := scripted_world) (get_request "/b/favicon.ico") self []
     = refused "/b/favicon.ico".
Proof.
  cbv zeta. repeat split; try (vm_compute; reflexivity).
  vm_compute. discriminate.
Qed.

Example serving_is_initialised :
  DispatcherApp.__init__ (H := scripted_world) (Some "b") false
  = Some (DispatcherApp.set_config ∅ (serving (Some "b"))).
Proof. vm_compute. reflexivity. Qed.

Lemma control_paths_are_absolute_witness :
  DispatcherApp.__call__ (H := scripted_world) (get_request "/shutdown")
    (serving (Some "b")) []
  = (Ok [bytes_literal "Shutdown"], serving (Some "b"),
     request_log (get_request "/shutdown") ++
     [Log INFO "Shutting down."; ServerStop 1%nat;
      StartResponse "200 OK" DispatcherApp.html_headers true]).
Proof.
  refine (proj1 (control_paths_are_absolute (H := scripted_world)
                   (get_request "/shutdown") (serving (Some "b")) 1%nat icon_bytes []
                   _ _ _ _) _).
  - vm_compute. reflexivity.
  - intros tr'. reflexivity.
  - intros tr' status headers. reflexivity.
  - intros tr'. reflexivity.
  - vm_compute. reflexivity.
Defined.

Lemma unknown_identifier_400_witness :
  DispatcherApp.__call__ (H := scripted_world) (get_request "/999/") (serving None) []
  = (Ok [encode_utf8 "URL not supported: /999/"], serving None,
     request_log (get_request "/999/") ++
     [Log ERROR "URL not supported: /999/";
      StartResponse "400 BAD REQUEST ERROR" DispatcherApp.html_headers true]).
Proof.
  refine (proj1 (unknown_identifier_400 (H := scripted_world)
                   (get_request "/999/") (serving None) [] _ _ _)).
  - vm_compute. reflexivity.
  - vm_compute. reflexivity.
  - vm_compute. reflexivity.
Defined.

Lemma shutdown_ignores_method_witness :
  let environ :=
    <["REQUEST_METHOD" := "GET"]>
      (<["REMOTE_ADDR" := "203.0.113.9"]> (get_request "/shutdown")) in
  DispatcherApp.__call__ (H := scripted_world) environ (serving None) []
  = (Ok [bytes_literal "Shutdown"], serving None,
     request_log environ ++
     [Log INFO "Shutting down."; ServerStop 1%nat;
      StartResponse "200 OK" DispatcherApp.html_headers true]).
Proof.
  refine (proj1 (shutdown_ignores_method (H := scripted_world)
                   "GET" "203.0.113.9" (get_request "/shutdown") (serving None)
                   1%nat [] _ _ _ _)).
  - vm_compute. reflexivity.
  - vm_compute. reflexivity.
  - vm_compute. reflexivity.
  - vm_compute. reflexivity.
Defined.

(* ===================================================================== *)
(** ** The session registry *)
(* ===================================================================== *)

Lemma factory_calls_app (tr1 tr2 : Trace) :
  factory_calls (tr1 ++ tr2) = factory_calls tr1 + factory_calls tr2.
Proof.
  induction tr1 as [|ev tr1 IH]; simpl; [reflexivity|].
  destruct ev; simpl; rewrite IH; reflexivity.
Qed.

Section Registry.
Context `{Externals}.

(** A context whose identifier the pool has: [register] logs and does
    nothing else. *)
Lemma register_known (ctx : PyObject) (opts : option PyObject)
    (self : DispatcherApp.t) (tr : Trace) :
  dict_contains (DispatcherApp.pool self) (DispatcherApp.obj_id ctx) = true ->
  DispatcherApp.register ctx opts self tr
  = (Ok tt, self, tr ++ [Log DEBUG ("App Entry found: " +:+ DispatcherApp.obj_id ctx)]).
Proof.
  intros Hin. unfold DispatcherApp.register, bind, get. rewrite Hin. reflexivity.
Qed.

(** A context whose identifier the pool lacks: one call of the factory,
    whose server goes to the end of the pool. *)
Lemma register_fresh (ctx : PyObject) (opts : option PyObject)
    (self : DispatcherApp.t) (tr : Trace) (dash : DashApp) :
  let ctx_id := DispatcherApp.obj_id ctx in
  let path := ctx_path self ctx_id in
  dict_contains (DispatcherApp.pool self) ctx_id = false ->
  generate_app (tr ++ [Log INFO ("Creating App Entry: " +:+ ctx_id)]) ctx opts path path
  = Ok dash ->
  DispatcherApp.register ctx opts self tr
  = (Ok tt,
     DispatcherApp.set_pool (DispatcherApp.pool self ++ [(ctx_id, server dash)]) self,
     tr ++ [Log INFO ("Creating App Entry: " +:+ ctx_id);
            GenerateApp ctx opts path path]).
Proof.
  intros ctx_id path Hout Hgen.
  unfold DispatcherApp.register, bind, get. fold ctx_id. rewrite Hout. simpl.
  unfold oracle. fold (ctx_path self ctx_id). fold path. rewrite Hgen.
  unfold put. simpl. rewrite dict_get_absent_set.
  - rewrite <- app_assoc. reflexivity.
  - unfold dict_contains in Hout. destruct (dict_get _ _); [discriminate | reflexivity].
Qed.

(** X7.  When the factory raises, [register] raises the same error and the
    pool is as it was. *)
Lemma register_factory_raises (ctx : PyObject) (opts : option PyObject)
    (self : DispatcherApp.t) (tr : Trace) (e : exn) :
  let ctx_id := DispatcherApp.obj_id ctx in
  let path := ctx_path self ctx_id in
  dict_contains (DispatcherApp.pool self) ctx_id = false ->
  generate_app (tr ++ [Log INFO ("Creating App Entry: " +:+ ctx_id)]) ctx opts path path
  = Raise e ->
  DispatcherApp.register ctx opts self tr
  = (Raise e, self,
     tr ++ [Log INFO ("Creating App Entry: " +:+ ctx_id);
            GenerateApp ctx opts path path]).
Proof.
  intros ctx_id path Hout Hgen.
  unfold DispatcherApp.register, bind, get. fold ctx_id. rewrite Hout. simpl.
  unfold oracle. fold (ctx_path self ctx_id). fold path. rewrite Hgen.
  rewrite <- app_assoc. reflexivity.
Qed.

(** C1.  Registering a context the pool does not have yet, twice: the first
    call invokes the session factory once and puts the application it
    returns into the pool under [str(id(ctx))]; the second call finds that
    identifier, invokes nothing and leaves the dispatcher as it is.  Both
    calls work with the same identifier, and over the two calls the factory
    ran exactly once.  The factory is assumed to return an application. *)
Theorem register_idempotent (ctx : PyObject) (opts1 opts2 : option PyObject)
    (self : DispatcherApp.t) (tr : Trace) (dash : DashApp) :
  let ctx_id := DispatcherApp.obj_id ctx in
  let path := ctx_path self ctx_id in
  let self1 :=
    DispatcherApp.set_pool (DispatcherApp.pool self ++ [(ctx_id, server dash)]) self in
  let tr1 := tr ++ [Log INFO ("Creating App Entry: " +:+ ctx_id);
                    GenerateApp ctx opts1 path path] in
  let tr2 := tr1 ++ [Log DEBUG ("App Entry found: " +:+ ctx_id)] in
  dict_contains (DispatcherApp.pool self) ctx_id = false ->
  generate_app (tr ++ [Log INFO ("Creating App Entry: " +:+ ctx_id)]) ctx opts1 path path
  = Ok dash ->
  DispatcherApp.register ctx opts1 self tr = (Ok tt, self1, tr1)
  /\ dict_get (DispatcherApp.pool self1) ctx_id = Some (server dash)
  /\ DispatcherApp.register ctx opts2 self1 tr1 = (Ok tt, self1, tr2)
  /\ factory_calls tr2 = S (factory_calls tr).
Proof.
  intros ctx_id path self1 tr1 tr2 Hout Hgen.
  assert (Hget : dict_get (DispatcherApp.pool self1) ctx_id = Some (server dash)).
  { unfold self1. simpl. rewrite <- dict_get_absent_set.
    - apply dict_get_set_eq.
    - unfold dict_contains in Hout.
      destruct (dict_get _ _); [discriminate | reflexivity]. }
  split; [| split; [| split]].
  - apply register_fresh; assumption.
  - exact Hget.
  - apply register_known. unfold dict_contains. fold ctx_id. rewrite Hget. reflexivity.
  - unfold tr2, tr1. rewrite !factory_calls_app. simpl. lia.
Qed.

End Registry.

(** Contexts of different identity have different identifiers. *)
Lemma obj_id_inj (c1 c2 : PyObject) :
  DispatcherApp.obj_id c1 = DispatcherApp.obj_id c2 -> py_id c1 = py_id c2.
Proof. unfold DispatcherApp.obj_id. apply (inj pretty). Qed.

(** The manager's [register] is the dispatcher's, on the dispatcher it
    holds; nothing else of the manager changes. *)
Lemma runner_register_delegates `{Externals} (ctx : PyObject)
    (opts : option PyObject) (self : AppRunner.t) (tr : Trace) :
  AppRunner.register ctx opts self tr
  = let '(r, a, tr') := DispatcherApp.register ctx opts (AppRunner.app self) tr in
    (r, AppRunner.set_app a self, tr').
Proof.
  unfold AppRunner.register, zoom.
  destruct (DispatcherApp.register ctx opts (AppRunner.app self) tr) as [[r a] tr'].
  reflexivity.
Qed.

Lemma register_idempotent_witness :
  let self := serving (Some "b") in
  let dash := mkDash (echo_app "/b/140523/") false false in
  let self1 := DispatcherApp.set_pool [("140523", server dash)] self in
  let tr1 := [Log INFO "Creating App Entry: 140523";
              GenerateApp ctx_A None "/b/140523/" "/b/140523/"] in
  DispatcherApp.register (H := scripted_world) ctx_A None self [] = (Ok tt, self1, tr1)
  /\ dict_get (DispatcherApp.pool self1) "140523" = Some (server dash)
  /\ DispatcherApp.register (H := scripted_world) ctx_A None self1 tr1
     = (Ok tt, self1, tr1 ++ [Log DEBUG "App Entry found: 140523"])
  /\ factory_calls (tr1 ++ [Log DEBUG "App Entry found: 140523"]) = 1.
Proof.
  cbv zeta.
  refine (register_idempotent (H := scripted_world) ctx_A None None
            (serving (Some "b")) [] (mkDash (echo_app "/b/140523/") false false) _ _).
  - vm_compute. reflexivity.
  - vm_compute. reflexivity.
Defined.

(* ===================================================================== *)
(** ** The lifecycle manager: links, stop and status *)
(* ===================================================================== *)

Lemma append_assoc (s1 s2 s3 : string) :
  (s1 +:+ s2) +:+ s3 = s1 +:+ (s2 +:+ s3).
Proof.
  induction s1 as [|c s1 IH]; [reflexivity|].
  change (String c ((s1 +:+ s2) +:+ s3) = String c (s1 +:+ (s2 +:+ s3))).
  f_equal. exact IH.
Qed.

Section Runner.
Context `{Externals}.

(** C10.  [display_link] is computed from the manager's address, base
    prefix and relative-links flag and from the identity of the context,
    and from nothing else: the URL is the start (["/"], or
    ["http://ip:port/"]), then the base prefix and a slash when there is a
    prefix, then [str(id(ctx))] and a slash.  It is the same whatever
    dispatcher, and so whatever pool, the manager holds: a context that was
    never registered gets the same well-formed link, under the identifier
    [register] would use. *)
Theorem display_link_shape (ctx : PyObject) (self : AppRunner.t) (tr : Trace)
    (other : DispatcherApp.t) :
  let start_url :=
    if AppRunner.use_relative_links self then "/"
    else "http://" +:+ AppRunner.ip self +:+ ":" +:+ pretty (AppRunner.port self) +:+ "/" in
  let base :=
    match AppRunner.base_url self with
    | None => ""
    | Some b => b +:+ "/"
    end in
  let url := start_url +:+ base +:+ pretty (py_id ctx) +:+ "/" in
  AppRunner.display_link ctx self tr
  = (Ok url, self, tr ++ [Log INFO ("Display URL: " +:+ url)])
  /\ AppRunner.display_link ctx (AppRunner.set_app other self) tr
     = (Ok url, AppRunner.set_app other self,
        tr ++ [Log INFO ("Display URL: " +:+ url)])
  /\ AppRunner._obj_id ctx = DispatcherApp.obj_id ctx.
Proof.
  intros start_url base url.
  assert (Hurl :
    url = start_url +:+
          match AppRunner.base_url self with
          | None => AppRunner._obj_id ctx +:+ "/"
          | Some b => b +:+ "/" +:+ AppRunner._obj_id ctx +:+ "/"
          end).
  { unfold url, base, AppRunner._obj_id.
    destruct (AppRunner.base_url self) as [b|]; [| reflexivity].
    f_equal. apply append_assoc. }
  split; [| split; [| reflexivity]].
  - unfold AppRunner.display_link, bind, get, log, emit, ret.
    fold start_url. rewrite <- Hurl. reflexivity.
  - unfold AppRunner.display_link, bind, get, log, emit, ret. simpl.
    fold start_url. rewrite <- Hurl. reflexivity.
Qed.

Lemma ping_returns (self : AppRunner.t) (tr : Trace) :
  exists b tr', AppRunner.ping self tr = (Ok b, self, tr').
Proof.
  unfold AppRunner.ping, bind, get, try_except, oracle, log, emit, ret.
  destruct (requests_get _ _) as [resp|msg]; simpl; eauto.
Qed.

(** C7.  [stop] on a started manager whose shutdown request got through and
    whose thread is still alive after the join: the answer is [False], and
    the manager keeps its thread handle.  [status] on that manager returns,
    and its [thread_alive] is what the thread's [is_alive()] says at that
    moment: [True] for as long as the background thread runs. *)
Theorem stop_timeout_reported (self : AppRunner.t) (th : Thread) (resp : string)
    (tr : Trace) :
  let url := AppRunner.http_url self "shutdown" in
  let tr1 := tr ++ [Log INFO "Triggering shutdown"] in
  let tr2 := tr1 ++ [HttpPost url; Log DEBUG resp; ThreadJoin th 5] in
  AppRunner._thread self = Some th ->
  requests_post tr1 url = inl resp ->
  thread_is_alive tr2 th = true ->
  AppRunner.stop self tr
  = (Ok false, self,
     tr2 ++ [Log ERROR "Thread still alive despite shutdown called."])
  /\ forall tr', exists st tr'',
       AppRunner.status self tr' = (Ok st, self, tr'')
       /\ AppRunner.thread_alive st = thread_is_alive tr' th.
Proof.
  intros url tr1 tr2 Hth Hpost Halive. split.
  - unfold AppRunner.stop. unfold bind at 1. unfold get at 1. rewrite Hth.
    unfold bind, log, emit, try_except, oracle, get, AppRunner.is_alive, ret.
    simpl. change (_build_path "shutdown" None) with "shutdown".
    fold url. fold tr1. rewrite Hpost. simpl. rewrite Hth.
    replace (((tr1 ++ [HttpPost url]) ++ [Log DEBUG resp]) ++ [ThreadJoin th 5])
      with tr2 by (unfold tr2; rewrite <- !app_assoc; reflexivity).
    rewrite Halive. reflexivity.
  - intros tr'. destruct (ping_returns self tr') as (b & tr'' & Hping).
    unfold AppRunner.status, bind, get. rewrite Hth.
    unfold AppRunner.is_alive. rewrite Hping.
    eexists _, _. split; reflexivity.
Qed.

(** A manager that was never started: [stop] does nothing and says [True]. *)
Lemma stop_never_started (self : AppRunner.t) (tr : Trace) :
  AppRunner._thread self = None ->
  AppRunner.stop self tr = (Ok true, self, tr).
Proof.
  intros Hth. unfold AppRunner.stop, bind, get. rewrite Hth. reflexivity.
Qed.

(** X11.  The thread has ended by the end of the join: [stop] says [True]
    and drops the handle, and [status] has [thread_alive] false from then
    on. *)
Lemma stop_succeeds (self : AppRunner.t) (th : Thread) (resp : string) (tr : Trace) :
  let url := AppRunner.http_url self "shutdown" in
  let tr1 := tr ++ [Log INFO "Triggering shutdown"] in
  let tr2 := tr1 ++ [HttpPost url; Log DEBUG resp; ThreadJoin th 5] in
  AppRunner._thread self = Some th ->
  requests_post tr1 url = inl resp ->
  thread_is_alive tr2 th = false ->
  AppRunner.stop self tr = (Ok true, AppRunner.set_thread None self, tr2)
  /\ forall tr', exists st tr'',
       AppRunner.status (AppRunner.set_thread None self) tr'
       = (Ok st, AppRunner.set_thread None self, tr'')
       /\ AppRunner.thread_alive st = false.
Proof.
  intros url tr1 tr2 Hth Hpost Hdead. split.
  - unfold AppRunner.stop. unfold bind at 1. unfold get at 1. rewrite Hth.
    unfold bind, log, emit, try_except, oracle, get, AppRunner.is_alive, ret, put.
    simpl. change (_build_path "shutdown" None) with "shutdown".
    fold url. fold tr1. rewrite Hpost. simpl. rewrite Hth.
    replace (((tr1 ++ [HttpPost url]) ++ [Log DEBUG resp]) ++ [ThreadJoin th 5])
      with tr2 by (unfold tr2; rewrite <- !app_assoc; reflexivity).
    rewrite Hdead. reflexivity.
  - intros tr'.
    destruct (ping_returns (AppRunner.set_thread None self) tr') as (b & tr'' & Hping).
    unfold AppRunner.status, bind, get. simpl. unfold ret at 1. rewrite Hping.
    eexists _, _. split; reflexivity.
Qed.

(** X12.  The shutdown request does not get through: [stop] says [False]
    and keeps the handle. *)
Lemma stop_request_fails (self : AppRunner.t) (th : Thread) (msg : string) (tr : Trace) :
  let url := AppRunner.http_url self "shutdown" in
  let tr1 := tr ++ [Log INFO "Triggering shutdown"] in
  AppRunner._thread self = Some th ->
  requests_post tr1 url = inr msg ->
  AppRunner.stop self tr
  = (Ok false, self,
     tr1 ++ [HttpPost url; Log INFO ("Dashboard stop failed: " +:+ msg)]).
Proof.
  intros url tr1 Hth Hpost.
  unfold AppRunner.stop. unfold bind at 1. unfold get at 1. rewrite Hth.
  unfold bind, log, emit, try_except, oracle, get, ret.
  simpl. change (_build_path "shutdown" None) with "shutdown".
  fold url. fold tr1. rewrite Hpost. simpl. rewrite <- app_assoc. reflexivity.
Qed.

End Runner.

Lemma stop_timeout_reported_witness :
  let self := AppRunner.mk (serving None) None false (Some 3%nat) "127.0.0.1" 7001 in
  AppRunner.stop (H := scripted_world) self []
  = (Ok false, self,
     [Log INFO "Triggering shutdown"; HttpPost "http://127.0.0.1:7001/shutdown";
      Log DEBUG "<Response [200]>"; ThreadJoin 3%nat 5;
      Log ERROR "Thread still alive despite shutdown called."]).
Proof.
  refine (proj1 (stop_timeout_reported (H := scripted_world)
                   (AppRunner.mk (serving None) None false (Some 3%nat) "127.0.0.1" 7001)
                   3%nat "<Response [200]>" [] _ _ _)).
  - reflexivity.
  - reflexivity.
  - reflexivity.
Defined.

(* ===================================================================== *)
(** ** The port allocator *)
(* ===================================================================== *)

Lemma probes_app (tr1 tr2 : Trace) : probes (tr1 ++ tr2) = probes tr1 ++ probes tr2.
Proof.
  induction tr1 as [|ev tr1 IH]; simpl; [reflexivity|].
  destruct ev; simpl; rewrite IH; reflexivity.
Qed.

Lemma draws_app (tr1 tr2 : Trace) : draws (tr1 ++ tr2) = draws tr1 ++ draws tr2.
Proof.
  induction tr1 as [|ev tr1 IH]; simpl; [reflexivity|].
  destruct ev; simpl; rewrite IH; reflexivity.
Qed.

Section Allocator.
Context `{Externals}.

Lemma local_port_available_run {O} (port : Z) (o : O) (tr : Trace) :
  AppRunner._local_port_available port false o tr
  = (Ok (socket_probe tr port), o, tr ++ [SocketProbe port (socket_probe tr port)]).
Proof.
  unfold AppRunner._local_port_available, try_except, bind, AppRunner.bind_listen_close.
  destruct (socket_probe tr port); reflexivity.
Qed.

(** One round of the loop. *)
Lemma allocate_port_step {O} (n : nat) (port : Z) (o : O) (tr : Trace) :
  AppRunner.allocate_port (S n) port o tr
  = if socket_probe tr port then
      (Ok (Some port), o,
       tr ++ [SocketProbe port true; Log INFO ("Found open port: " +:+ pretty port)])
    else
      let tr' := tr ++ [SocketProbe port false;
                        Log INFO ("Port already in use: " +:+ pretty port)] in
      AppRunner.allocate_port n (random_randint tr' 7002 7999) o
        (tr' ++ [Randint 7002 7999 (random_randint tr' 7002 7999)]).
Proof.
  cbn [AppRunner.allocate_port]. unfold bind at 1.
  rewrite local_port_available_run.
  destruct (socket_probe tr port).
  - unfold bind, log, emit, ret. rewrite <- app_assoc. reflexivity.
  - unfold bind, log, emit, AppRunner.randint. cbv zeta.
    rewrite <- !app_assoc. reflexivity.
Qed.

Lemma allocate_port_spec {O} (n : nat) : forall (port : Z) (o : O) (tr : Trace),
  exists found evs,
    AppRunner.allocate_port n port o tr = (Ok found, o, tr ++ evs)
    /\ (n = 0 /\ probes evs = []
        \/ exists free rest,
             probes evs = (port, free) :: rest
             /\ Forall in_candidate_range rest
             /\ map fst rest `prefix_of` draws evs)
    /\ length (probes evs) <= n
    /\ match found with
       | Some p =>
           exists failed, probes evs = failed ++ [(p, true)] /\ Forall probe_failed failed
       | None => length (probes evs) = n /\ Forall probe_failed (probes evs)
       end.
Proof.
  induction n as [|n IH]; intros port o tr.
  - exists None, []. simpl. unfold ret. rewrite app_nil_r.
    repeat split; auto.
  - rewrite allocate_port_step. destruct (socket_probe tr port) eqn:Hfree.
    + eexists (Some port), _. split; [reflexivity|]. simpl.
      split; [right; exists true, []; repeat split; [constructor | apply prefix_nil] |].
      split; [lia|]. exists []. split; [reflexivity | constructor].
    + cbv zeta.
      set (tr' := tr ++ [SocketProbe port false;
                         Log INFO ("Port already in use: " +:+ pretty port)]).
      set (v := random_randint tr' 7002 7999).
      assert (Hv : (7002 <= v <= 7999)%Z) by (apply random_randint_range; lia).
      destruct (IH v o (tr' ++ [Randint 7002 7999 v]))
        as (found & evs & Hrun & Hshape & Hlen & Hres).
      exists found,
        ([SocketProbe port false; Log INFO ("Port already in use: " +:+ pretty port);
          Randint 7002 7999 v] ++ evs).
      split.
      { rewrite Hrun. unfold tr'. rewrite <- !app_assoc. reflexivity. }
      cbn [app probes draws].
      split; [| split].
      * right. exists false, (probes evs). split; [reflexivity|].
        destruct Hshape as [[_ Hnil] | (free & rest & Hp & Hrange & Hpre)].
        -- rewrite Hnil. split; [constructor | apply prefix_nil].
        -- rewrite Hp. split.
           ++ constructor; [exact Hv | exact Hrange].
           ++ cbn [map fst]. apply prefix_cons. exact Hpre.
      * cbn [length]. lia.
      * destruct found as [p|].
        -- destruct Hres as (failed & Hp & Hfailed).
           exists ((port, false) :: failed). rewrite Hp. split; [reflexivity|].
           constructor; [reflexivity | exact Hfailed].
        -- destruct Hres as [Hn Hfailed]. cbn [length]. split; [lia|].
           constructor; [reflexivity | exact Hfailed].
Qed.

Lemma allocate_port_exhausted {O} (n : nat) :
  (forall tr' p, socket_probe tr' p = false) ->
  forall (port : Z) (o : O) (tr : Trace),
    (AppRunner.allocate_port n port o tr).1.1 = Ok None.
Proof.
  intros Hbusy. induction n as [|n IH]; intros port o tr; [reflexivity|].
  rewrite allocate_port_step, Hbusy. apply IH.
Qed.


End Allocator.

Example scripted_init_run :
  exists self,
    scripted_init tt []
    = (Ok self, tt,
       [SocketProbe 7001 false; Log INFO "Port already in use: 7001";
        Randint 7002 7999 7004; SocketProbe 7004 true;
        Log INFO "Found open port: 7004"])
    /\ AppRunner.port self = 7004%Z.
Proof. eexists. split; vm_compute; reflexivity. Qed.


(* ===================================================================== *)
(** ** Worked examples in the scripted world *)
(* ===================================================================== *)

Example search_plain :
  Re.search (Re.Cat (Re.Opt Re.slash) Re.segment) "/140523/assets/x.js"
  = Some (<[0%nat := "/140523/"]> (<[2%nat := "/"]> (<[1%nat := "140523"]> ∅))).
Proof. vm_compute. reflexivity. Qed.

(** No segment to take: the empty path and a lone newline match nothing. *)
Example search_nothing :
  Re.search (Re.Cat (Re.Opt Re.slash) Re.segment) "" = None
  /\ Re.search (Re.Cat (Re.Opt Re.slash) Re.segment) Re.newline_str = None.
Proof. split; vm_compute; reflexivity. Qed.

(** A registered session is reached with and without the base prefix, and
    is handed the path with the prefix in both cases. *)
Example routed_to_session :
  (DispatcherApp.__call__ (H := scripted_world) (get_request "/140523/x")
     registered_A []).1.1
  = Ok [bytes_literal "/b/140523//b/140523/x"]
  /\ (DispatcherApp.__call__ (H := scripted_world) (get_request "/b/140523/x")
        registered_A []).1.1
     = Ok [bytes_literal "/b/140523//b/140523/x"].
Proof. split; vm_compute; reflexivity. Qed.

(** A dispatcher that is called without a configured server: the
    [KeyError] of [self.config["server"]] ends as the 500 answer. *)
Example shutdown_without_server :
  DispatcherApp.__call__ (H := scripted_world) (get_request "/shutdown")
    (DispatcherApp.set_config ∅ (serving None)) []
  = (Ok DispatcherApp.internal_error_body, DispatcherApp.set_config ∅ (serving None),
     request_log (get_request "/shutdown") ++
     [Log INFO "Shutting down."; Log ERROR "'server'";
      StartResponse status_500 headers_500 true]).
Proof. vm_compute. reflexivity. Qed.

(** A session application that raises: the same 500 answer. *)
Example session_raises :
  let failing : App := fun _ _ => (Raise (Exception "callback failed"), []) in
  (DispatcherApp.__call__ (H := scripted_world) (get_request "/7/")
     (DispatcherApp.set_pool [("7", failing)] (serving None)) []).1.1
  = Ok DispatcherApp.internal_error_body.
Proof. vm_compute. reflexivity. Qed.

(** The status page lists the sessions in the order they were registered. *)
Example root_lists_sessions :
  DispatcherApp._root_content registered_A
  = DispatcherApp.root_body_head +:+
    "<li><a href=" +:+ dq +:+ "/b/140523/" +:+ dq +:+ ">140523</a></li>" +:+
    DispatcherApp.root_body_tail.
Proof. vm_compute. reflexivity. Qed.

(* ===================================================================== *)
(** ** Identifiers and the paths that reach a session *)
(* ===================================================================== *)

Lemma pretty_N_char_digit (x : N) : is_digit (pretty_N_char x) = true.
Proof. unfold pretty_N_char. repeat case_match; reflexivity. Qed.

Lemma pretty_N_go_digits (x : N) : forall s,
  all_digits s = true -> s <> "" \/ (0 < x)%N ->
  all_digits (pretty_N_go x s) = true /\ pretty_N_go x s <> "".
Proof.
  induction (N.lt_wf_0 x) as [x _ IH]. intros s Hs Hne.
  destruct (decide (x = 0%N)) as [->|Hx].
  - rewrite pretty_N_go_0. split; [exact Hs|].
    destruct Hne as [Hne|Hlt]; [exact Hne | lia].
  - rewrite pretty_N_go_step by lia. apply IH.
    + apply N.div_lt; lia.
    + simpl. rewrite pretty_N_char_digit. exact Hs.
    + left. discriminate.
Qed.

(** An identifier is a non-empty run of decimal digits. *)
Lemma obj_id_digits (ctx : PyObject) :
  all_digits (DispatcherApp.obj_id ctx) = true /\ DispatcherApp.obj_id ctx <> "".
Proof.
  unfold DispatcherApp.obj_id, pretty, pretty_N.
  case_decide as Hx.
  - split; [reflexivity | discriminate].
  - apply pretty_N_go_digits; [reflexivity | right; lia].
Qed.

Lemma length_app_string (s t : string) :
  String.length (s +:+ t) = String.length s + String.length t.
Proof.
  induction s as [|c s IH]; [reflexivity|].
  change (S (String.length (s +:+ t)) = S (String.length s + String.length t)).
  f_equal. exact IH.
Qed.

Lemma consumed_app (d t : string) : Re.consumed (d +:+ t) t = d.
Proof.
  unfold Re.consumed. rewrite length_app_string.
  replace (String.length d + String.length t - String.length t)
    with (String.length d) by lia.
  induction d as [|c d IH].
  - destruct t; reflexivity.
  - change (String c (substring 0 (String.length d) (d +:+ t)) = String c d).
    f_equal. exact IH.
Qed.

Lemma prefix_app (b t : string) : String.prefix b (b +:+ t) = true.
Proof.
  induction b as [|c b IH]; [destruct t; reflexivity|].
  change (String c b +:+ t) with (String c (b +:+ t)). cbn [String.prefix].
  destruct (ascii_dec c c); [exact IH | congruence].
Qed.

Lemma append_empty_r (s : string) : s +:+ "" = s.
Proof.
  induction s as [|c s IH]; [reflexivity|].
  change (String c (s +:+ "") = String c s). f_equal. exact IH.
Qed.

Lemma digit_not_special (c : ascii) :
  is_digit c = true -> Ascii.eqb "/" c = false /\ Ascii.eqb c Re.newline = false.
Proof.
  intros Hd. split.
  - destruct (Ascii.eqb_spec "/"%char c) as [<-|]; [discriminate Hd | reflexivity].
  - destruct (Ascii.eqb_spec c Re.newline) as [->|]; [discriminate Hd | reflexivity].
Qed.

(** [.+?] stops at the end of a run of digits when the rest of the pattern
    matches there and nowhere inside the run. *)
Lemma plus_lazy_stops (d t : string) (g : gmap nat string) (C : Re.Cont) r :
  (forall c s, is_digit c = true -> C (String c s) g = None) ->
  C t g = Some r ->
  d <> "" -> all_digits d = true ->
  Re.plus_lazy Re.ADot (d +:+ t) g C = Some r.
Proof.
  intros Hmid Hend. induction d as [|c d IH]; [congruence|].
  intros _ Hd. cbn in Hd. apply andb_prop in Hd as [Hc Hd].
  change (String c d +:+ t) with (String c (d +:+ t)).
  cbn [Re.plus_lazy Re.atom_matches].
  destruct (digit_not_special c Hc) as [_ ->]. cbn [negb].
  destruct d as [|c' d].
  - change ("" +:+ t) with t. rewrite Hend. reflexivity.
  - change (String c' d +:+ t) with (String c' (d +:+ t)).
    cbn in Hd. pose proof Hd as Hd'. apply andb_prop in Hd' as [Hc' _].
    rewrite (Hmid c' _ Hc').
    apply IH; [discriminate | exact Hd].
Qed.

(** [(.+?)(/|$)] on a run of digits that a slash follows. *)
Lemma segment_run (d rest : string) (g : gmap nat string) (k : Re.Cont) r :
  d <> "" -> all_digits d = true ->
  k rest (<[2%nat := "/"]> (<[1%nat := d]> g)) = Some r ->
  Re.run Re.segment (d +:+ "/" +:+ rest) g k = Some r.
Proof.
  intros Hne Hd Hk. unfold Re.segment. cbn [Re.run].
  apply plus_lazy_stops; try assumption.
  - intros c s Hc. cbn [Re.run Re.slash Re.atom_matches Re.at_eol].
    destruct (digit_not_special c Hc) as [-> Hnl].
    destruct s; [rewrite Hnl|]; reflexivity.
  - rewrite consumed_app.
    change ("/" +:+ rest) with (String "/" rest).
    cbn [Re.run Re.slash Re.atom_matches]. rewrite Ascii.eqb_refl.
    replace (Re.consumed (String "/" rest) rest) with "/"
      by (symmetry; apply (consumed_app "/" rest)).
    rewrite Hk. reflexivity.
Qed.

(** The path a session is registered under, followed by anything, is
    parsed as a request for that session. *)
Lemma search_session_path (self : DispatcherApp.t) (d rest : string) :
  DispatcherApp.compile_app_pattern (DispatcherApp.base_url self)
  = Some (DispatcherApp.app_pattern self) ->
  d <> "" -> all_digits d = true ->
  exists m,
    Re.search (DispatcherApp.app_pattern self) (ctx_path self d +:+ rest) = Some m
    /\ Re.group m 1 = d.
Proof.
  intros Hpat Hne Hd. unfold ctx_path.
  unfold DispatcherApp.compile_app_pattern in Hpat.
  destruct (DispatcherApp.base_url self) as [b|].
  - destruct (Re.compile_text b) as [rb|] eqn:Hb; [| discriminate].
    apply (inj Some) in Hpat. rewrite <- Hpat.
    rewrite !append_assoc.
    change ("/" +:+ b +:+ "/" +:+ d +:+ "/" +:+ rest)
      with (String "/" (b +:+ String "/" (d +:+ "/" +:+ rest))).
    eexists. split.
    + cbn [Re.search Re.run Re.slash Re.atom_matches]. rewrite Ascii.eqb_refl.
      rewrite (run_compile_text b rb) by assumption.
      cbn [Re.run Re.atom_matches]. rewrite Ascii.eqb_refl.
      erewrite segment_run; [reflexivity | assumption | assumption | reflexivity].
    + unfold Re.group. rewrite !lookup_insert_ne by discriminate.
      rewrite lookup_insert_eq. reflexivity.
  - apply (inj Some) in Hpat. rewrite <- Hpat.
    rewrite !append_assoc.
    change ("/" +:+ d +:+ "/" +:+ rest) with (String "/" (d +:+ "/" +:+ rest)).
    eexists. split.
    + cbn [Re.search Re.run Re.slash Re.atom_matches]. rewrite Ascii.eqb_refl.
      erewrite segment_run; [reflexivity | assumption | assumption | reflexivity].
    + unfold Re.group. rewrite !lookup_insert_ne by discriminate.
      rewrite lookup_insert_eq. reflexivity.
Qed.

Lemma session_path_not_control (self : DispatcherApp.t) (d rest : string) :
  d <> "" -> all_digits d = true ->
  is_control_path (ctx_path self d +:+ rest) = false.
Proof.
  intros Hne Hd. destruct d as [|c d]; [congruence|].
  cbn in Hd. apply andb_prop in Hd as [Hc _].
  unfold is_control_path, ctx_path, DispatcherApp.root_path,
    DispatcherApp.shutdown_path, DispatcherApp.favicon_path.
  destruct (DispatcherApp.base_url self) as [b|]; rewrite !append_assoc;
    repeat (apply orb_false_intro); apply String.eqb_neq; intros Heq;
    simpl in Heq; injection Heq as Heq.
  1-3: peel Heq b.
  all: first [ discriminate Heq | subst c; discriminate Hc ].
Qed.

Lemma run_compile_text_empty (b : string) : forall rb g k,
  Re.compile_text b = Some rb ->
  Re.run rb "" g k = if String.eqb b "" then k "" g else None.
Proof.
  destruct b as [|c b]; intros rb g k Hc.
  - injection Hc as <-. reflexivity.
  - cbn [Re.compile_text] in Hc.
    destruct (Re.compile_text b) as [r|]; [| discriminate].
    destruct (Ascii.eqb c "."); [injection Hc as <-; reflexivity|].
    destruct (Re.is_metachar c); [discriminate|]. injection Hc as <-. reflexivity.
Qed.

(** The application pattern matches nothing in the empty path. *)
Lemma search_empty_path (base : option string) (pat : Re.regex) :
  DispatcherApp.compile_app_pattern base = Some pat -> Re.search pat "" = None.
Proof.
  unfold DispatcherApp.compile_app_pattern. destruct base as [b|].
  - destruct (Re.compile_text b) as [rb|] eqn:Hb; [| discriminate].
    intros Hpat. apply (inj Some) in Hpat. subst pat.
    cbn [Re.search Re.run Re.slash]. rewrite (run_compile_text_empty b rb) by assumption.
    destruct (String.eqb b ""); reflexivity.
  - intros Hpat. apply (inj Some) in Hpat. subst pat. reflexivity.
Qed.

(* ===================================================================== *)
(** ** Requests that are handed to a session *)
(* ===================================================================== *)

Section Routing.
Context `{Externals}.

Lemma resolve_some (self : DispatcherApp.t) (p id : string) :
  resolve self p = Some id ->
  exists m app,
    Re.search (DispatcherApp.app_pattern self) p = Some m
    /\ Re.group m 1 = id
    /\ dict_get (DispatcherApp.pool self) id = Some app.
Proof.
  unfold resolve, dict_contains. intros Hr.
  destruct (Re.search _ _) as [m|]; [| discriminate].
  destruct (dict_get _ (Re.group m 1)) as [app|] eqn:Hget; [| discriminate].
  injection Hr as <-. eauto.
Qed.

Lemma route_session_resolved (environ : Environ) (p id : string)
    (self : DispatcherApp.t) (app : App) (tr : Trace) :
  environ !! "PATH_INFO" = Some p ->
  resolve self p = Some id ->
  dict_get (DispatcherApp.pool self) id = Some app ->
  DispatcherApp.route_session environ p self tr
  = call_app app (forwarded_environ self environ p) self
      (tr ++ [Log INFO ("Routing request: " +:+ id)] ++ rewrite_log self p).
Proof.
  intros Hp Hr Hget.
  destruct (resolve_some self p id Hr) as (m & app' & Hs & Hg & Hget').
  rewrite Hget in Hget'. injection Hget' as <-.
  unfold DispatcherApp.route_session, forwarded_environ, rewrite_log, adds_base.
  unfold bind at 1. unfold get at 1. rewrite Hs, Hg, Hget.
  unfold bind at 1. unfold log, emit at 1.
  unfold bind at 1. unfold dict_getitem. rewrite Hget. unfold ret at 1.
  unfold bind at 1.
  destruct (DispatcherApp.truthy (DispatcherApp.base_url self)); cbn [andb].
  - unfold bind at 1. unfold getitem at 1. rewrite Hp. unfold ret at 1.
    destruct (negb _).
    + unfold bind, log, emit, getitem. rewrite Hp. unfold ret.
      rewrite <- app_assoc. reflexivity.
    + unfold ret. rewrite app_nil_r. reflexivity.
  - unfold ret. rewrite app_nil_r. reflexivity.
Qed.

Lemma call_delegated (environ : Environ) (self : DispatcherApp.t) (tr tr1 : Trace)
    (app : App) (env' : Environ) :
  DispatcherApp.dispatch environ (default "" (environ !! "PATH_INFO")) self
    (tr ++ request_log environ)
  = call_app app env' self tr1 ->
  DispatcherApp.__call__ environ self tr = delegated app env' self tr1.
Proof.
  intros Hd. rewrite call_unfold. unfold try_except. rewrite Hd.
  unfold call_app, delegated. destruct (app env' tr1) as [[body|e] evs]; [reflexivity|].
  rewrite on_exception_run. rewrite <- !app_assoc. reflexivity.
Qed.

(** X1.  A request whose path is no control path and resolves to a
    registered identifier is handed to the application registered under
    that identifier, and the dispatcher answers with what that application
    returns, unchanged; it makes no [start_response] call of its own.  When
    the application raises, the answer is the 500 answer. *)
Theorem session_response_unmodified (environ : Environ) (p id : string)
    (self : DispatcherApp.t) (app : App) (tr : Trace) :
  environ !! "PATH_INFO" = Some p ->
  is_control_path p = false ->
  resolve self p = Some id ->
  dict_get (DispatcherApp.pool self) id = Some app ->
  DispatcherApp.__call__ environ self tr
  = delegated app (forwarded_environ self environ p) self
      (tr ++ request_log environ ++ [Log INFO ("Routing request: " +:+ id)]
          ++ rewrite_log self p).
Proof.
  intros Hp Hc Hr Hget. apply call_delegated. rewrite Hp. cbn [default from_option].
  rewrite dispatch_not_control by assumption.
  rewrite (route_session_resolved environ p id self app) by assumption.
  rewrite <- !app_assoc. reflexivity.
Qed.

(** X2.  The environ a session application is called with differs from the
    request's in [PATH_INFO] at most.  With a non-empty base prefix [b] the
    forwarded path starts with [/b]: it is the request path when that
    starts with [/b] already, and [/b] followed by the request path
    otherwise.  Without a base prefix, or with the empty one, the environ
    is handed on as it is. *)
Theorem forwarded_path_carries_base (environ : Environ) (p id : string)
    (self : DispatcherApp.t) (app : App) (tr : Trace) :
  environ !! "PATH_INFO" = Some p ->
  resolve self p = Some id ->
  dict_get (DispatcherApp.pool self) id = Some app ->
  exists env' tr',
    DispatcherApp.route_session environ p self tr = call_app app env' self tr'
    /\ (forall key, key <> "PATH_INFO" -> env' !! key = environ !! key)
    /\ match DispatcherApp.base_url self with
       | None | Some EmptyString => env' = environ
       | Some b =>
           exists p', env' !! "PATH_INFO" = Some p'
             /\ String.prefix ("/" +:+ b) p' = true
             /\ (if String.prefix ("/" +:+ b) p then p' = p
                 else p' = "/" +:+ b +:+ p)
       end.
Proof.
  intros Hp Hr Hget. eexists _, _. split.
  { apply (route_session_resolved environ p id self app); assumption. }
  unfold forwarded_environ, adds_base.
  destruct (DispatcherApp.base_url self) as [[|c b]|];
    cbn [DispatcherApp.truthy andb default from_option Datatypes.id].
  - split; [reflexivity | reflexivity].
  - destruct (String.prefix ("/" +:+ String c b) p) eqn:Hpre; cbn [negb].
    + split; [reflexivity|]. exists p. auto.
    + split.
      * intros key Hkey. rewrite lookup_insert_ne by congruence. reflexivity.
      * eexists. split; [apply lookup_insert_eq|]. split; [| reflexivity].
        rewrite <- append_assoc. apply prefix_app.
  - split; reflexivity.
Qed.

(** X8.  A request whose environ has no [PATH_INFO] at all is answered 400
    with the body "URL not supported: " (the path taken as empty); the
    missing key raises nothing.  The dispatcher has the pattern its
    constructor compiled; the server is assumed to take the status line. *)
Theorem missing_path_info_400 (environ : Environ) (self : DispatcherApp.t)
    (tr : Trace) :
  let evs := request_log environ ++ [Log ERROR "URL not supported: "] in
  environ !! "PATH_INFO" = None ->
  DispatcherApp.compile_app_pattern (DispatcherApp.base_url self)
  = Some (DispatcherApp.app_pattern self) ->
  accepts (tr ++ evs) status_400 DispatcherApp.html_headers = true ->
  DispatcherApp.__call__ environ self tr
  = (Ok [bytes_literal "URL not supported: "], self,
     tr ++ evs ++ [StartResponse status_400 DispatcherApp.html_headers true]).
Proof.
  intros evs Hp Hpat Hacc.
  rewrite call_unfold, Hp. cbn [default from_option].
  rewrite dispatch_not_control by reflexivity.
  unfold try_except. rewrite route_session_unresolved.
  - unfold bind, log, emit, start_response, ret. unfold accepts in Hacc. unfold evs in *.
    rewrite <- ?app_assoc in *. simpl in *.
    destruct (wsgi_start_response _ _ _); [discriminate|]. reflexivity.
  - unfold resolve. rewrite (search_empty_path _ _ Hpat). reflexivity.
Qed.

End Routing.

Section Links.
Context `{Externals}.


End Links.

Lemma session_response_unmodified_witness :
  DispatcherApp.__call__ (H := scripted_world) (get_request "/140523/x") registered_A []
  = delegated (H := scripted_world) (echo_app "/b/140523/")
      (forwarded_environ registered_A (get_request "/140523/x") "/140523/x")
      registered_A
      ([] ++ request_log (get_request "/140523/x")
          ++ [Log INFO "Routing request: 140523"]
          ++ rewrite_log registered_A "/140523/x").
Proof.
  refine (session_response_unmodified (H := scripted_world)
            (get_request "/140523/x") "/140523/x" "140523" registered_A
            (echo_app "/b/140523/") [] _ _ _ _).
  - vm_compute. reflexivity.
  - vm_compute. reflexivity.
  - vm_compute. reflexivity.
  - vm_compute. reflexivity.
Defined.

Lemma forwarded_path_carries_base_witness :
  exists env' tr',
    DispatcherApp.route_session (H := scripted_world) (get_request "/140523/x")
      "/140523/x" registered_A []
    = call_app (echo_app "/b/140523/") env' registered_A tr'
    /\ (forall key, key <> "PATH_INFO" -> env' !! key = get_request "/140523/x" !! key)
    /\ exists p', env' !! "PATH_INFO" = Some p'
         /\ String.prefix "/b" p' = true
         /\ p' = "/b/140523/x".
Proof.
  refine (forwarded_path_carries_base (H := scripted_world)
            (get_request "/140523/x") "/140523/x" "140523" registered_A
            (echo_app "/b/140523/") [] _ _ _).
  - vm_compute. reflexivity.
  - vm_compute. reflexivity.
  - vm_compute. reflexivity.
Defined.

Lemma missing_path_info_400_witness :
  DispatcherApp.__call__ (H := scripted_world) ∅ registered_A []
  = (Ok [bytes_literal "URL not supported: "], registered_A,
     [] ++ (request_log ∅ ++ [Log ERROR "URL not supported: "])
        ++ [StartResponse status_400 DispatcherApp.html_headers true]).
Proof.
  refine (missing_path_info_400 (H := scripted_world) ∅ registered_A [] _ _ _).
  - reflexivity.
  - vm_compute. reflexivity.
  - vm_compute. reflexivity.
Defined.

(* ===================================================================== *)
(** ** The registry: what [register] keeps *)
(* ===================================================================== *)

Lemma dict_keys_app {V} (d1 d2 : list (string * V)) :
  dict_keys (d1 ++ d2) = dict_keys d1 ++ dict_keys d2.
Proof. unfold dict_keys. apply map_app. Qed.

Lemma dict_get_none_keys {V} (d : list (string * V)) (key : string) :
  dict_get d key = None -> ~ In key (dict_keys d).
Proof.
  induction d as [|[k v] d IH]; simpl; [tauto|].
  destruct (String.eqb_spec k key) as [->|Hne]; [discriminate|].
  intros Hd [Hk|Hin]; [congruence | exact (IH Hd Hin)].
Qed.

Lemma dict_get_app_r {V} (d1 d2 : list (string * V)) (key : string) :
  dict_get d1 key = None -> dict_get (d1 ++ d2) key = dict_get d2 key.
Proof.
  induction d1 as [|[k w] d1 IH]; simpl; [reflexivity|].
  destruct (String.eqb k key); [discriminate | exact IH].
Qed.

Lemma dict_get_set_ne {V} (d : list (string * V)) (key key' : string) (v : V) :
  key <> key' -> dict_get (dict_set d key' v) key = dict_get d key.
Proof.
  intros Hne. induction d as [|[k w] d IH]; simpl.
  - destruct (String.eqb_spec key' key); [congruence | reflexivity].
  - destruct (String.eqb_spec k key') as [->|Hk]; simpl.
    + destruct (String.eqb_spec key' key); [congruence | reflexivity].
    + destruct (String.eqb k key); [reflexivity | exact IH].
Qed.

Section RegistryFacts.
Context `{Externals}.

(** The three ways [register] ends. *)
Lemma register_run (ctx : PyObject) (opts : option PyObject)
    (self : DispatcherApp.t) (tr : Trace) :
  let ctx_id := DispatcherApp.obj_id ctx in
  let path := ctx_path self ctx_id in
  let tr1 := tr ++ [Log INFO ("Creating App Entry: " +:+ ctx_id)] in
  DispatcherApp.register ctx opts self tr
  = match dict_get (DispatcherApp.pool self) ctx_id with
    | Some _ => (Ok tt, self, tr ++ [Log DEBUG ("App Entry found: " +:+ ctx_id)])
    | None =>
        match generate_app tr1 ctx opts path path with
        | Ok dash =>
            (Ok tt,
             DispatcherApp.set_pool
               (DispatcherApp.pool self ++ [(ctx_id, server dash)]) self,
             tr1 ++ [GenerateApp ctx opts path path])
        | Raise e => (Raise e, self, tr1 ++ [GenerateApp ctx opts path path])
        end
    end.
Proof.
  intros ctx_id path tr1.
  destruct (dict_get (DispatcherApp.pool self) ctx_id) as [a|] eqn:Hget.
  - apply register_known. unfold dict_contains. fold ctx_id. rewrite Hget. reflexivity.
  - unfold DispatcherApp.register, bind, get, dict_contains. fold ctx_id.
    rewrite Hget. simpl. unfold oracle. fold (ctx_path self ctx_id). fold path.
    fold tr1. destruct (generate_app tr1 ctx opts path path) as [dash|e]; [| reflexivity].
    unfold put. simpl. rewrite dict_get_absent_set by assumption. reflexivity.
Qed.

(** X4.  Whatever [register] is called with and however it ends, the pool
    afterwards is the pool before with at most one entry added at its end,
    and nothing else of the dispatcher changes: no entry is ever removed,
    replaced or reordered.  An entry is added only under the identifier of
    the context, only when the pool did not have that identifier, and only
    by a call that returns. *)
Theorem register_only_appends (ctx : PyObject) (opts : option PyObject)
    (self : DispatcherApp.t) (tr : Trace) :
  exists added,
    (DispatcherApp.register ctx opts self tr).1.2
    = DispatcherApp.set_pool (DispatcherApp.pool self ++ added) self
    /\ (added = []
        \/ exists a,
             added = [(DispatcherApp.obj_id ctx, a)]
             /\ (DispatcherApp.register ctx opts self tr).1.1 = Ok tt
             /\ dict_get (DispatcherApp.pool self) (DispatcherApp.obj_id ctx) = None).
Proof.
  rewrite register_run.
  destruct (dict_get _ _) as [a|] eqn:Hget.
  - exists []. cbn. rewrite app_nil_r. destruct self; auto.
  - destruct (generate_app _ _ _ _ _) as [dash|e].
    + exists [(DispatcherApp.obj_id ctx, server dash)]. cbn.
      split; [reflexivity|]. right. eauto.
    + exists []. cbn. rewrite app_nil_r. destruct self; auto.
Qed.


(** X6.  Two contexts of different identity, neither registered before,
    registered one after the other: their identifiers differ, the factory
    runs once for each, and the pool ends with the two applications, each
    under the identifier of its own context.  The factory is assumed to
    return an application both times. *)
Theorem distinct_contexts_distinct_entries (c1 c2 : PyObject)
    (o1 o2 : option PyObject) (self : DispatcherApp.t) (tr : Trace) (d1 d2 : DashApp) :
  let id1 := DispatcherApp.obj_id c1 in
  let id2 := DispatcherApp.obj_id c2 in
  let tr1 := tr ++ [Log INFO ("Creating App Entry: " +:+ id1);
                    GenerateApp c1 o1 (ctx_path self id1) (ctx_path self id1)] in
  py_id c1 <> py_id c2 ->
  dict_get (DispatcherApp.pool self) id1 = None ->
  dict_get (DispatcherApp.pool self) id2 = None ->
  generate_app (tr ++ [Log INFO ("Creating App Entry: " +:+ id1)]) c1 o1
    (ctx_path self id1) (ctx_path self id1) = Ok d1 ->
  generate_app (tr1 ++ [Log INFO ("Creating App Entry: " +:+ id2)]) c2 o2
    (ctx_path self id2) (ctx_path self id2) = Ok d2 ->
  exists self1 self2 tr2,
    DispatcherApp.register c1 o1 self tr = (Ok tt, self1, tr1)
    /\ DispatcherApp.register c2 o2 self1 tr1 = (Ok tt, self2, tr2)
    /\ id1 <> id2
    /\ DispatcherApp.pool self2
       = DispatcherApp.pool self ++ [(id1, server d1); (id2, server d2)]
    /\ dict_get (DispatcherApp.pool self2) id1 = Some (server d1)
    /\ dict_get (DispatcherApp.pool self2) id2 = Some (server d2)
    /\ factory_calls tr2 = 2 + factory_calls tr.
Proof.
  intros id1 id2 tr1 Hid Hf1 Hf2 Hg1 Hg2.
  assert (Hne : id1 <> id2).
  { intros Heq. apply Hid. apply (inj pretty). exact Heq. }
  eexists _, _, _.
  split.
  { rewrite register_run. fold id1. rewrite Hf1, Hg1. rewrite <- app_assoc. reflexivity. }
  assert (Hf2' : dict_get (DispatcherApp.pool self ++ [(id1, server d1)]) id2 = None).
  { rewrite dict_get_app_r by assumption. simpl.
    destruct (String.eqb_spec id1 id2); [contradiction | reflexivity]. }
  split.
  { rewrite register_run. fold id2. cbn [DispatcherApp.pool DispatcherApp.set_pool].
    rewrite Hf2'. unfold ctx_path in *. cbn [DispatcherApp.base_url DispatcherApp.set_pool].
    rewrite Hg2. reflexivity. }
  split; [exact Hne|].
  cbn [DispatcherApp.pool DispatcherApp.set_pool]. rewrite <- app_assoc.
  split; [reflexivity|]. split; [| split].
  - rewrite dict_get_app_r by assumption. simpl. rewrite String.eqb_refl. reflexivity.
  - rewrite dict_get_app_r by assumption. simpl.
    destruct (String.eqb_spec id1 id2); [contradiction|]. rewrite String.eqb_refl.
    reflexivity.
  - unfold tr1. rewrite !factory_calls_app. simpl. lia.
Qed.

End RegistryFacts.


Lemma distinct_contexts_distinct_entries_witness :
  exists self1 self2 tr2,
    DispatcherApp.register (H := scripted_world) ctx_A None (serving None) []
    = (Ok tt, self1,
       [] ++ [Log INFO "Creating App Entry: 140523";
              GenerateApp ctx_A None "/140523/" "/140523/"])
    /\ DispatcherApp.register (H := scripted_world) ctx_B None self1
         ([] ++ [Log INFO "Creating App Entry: 140523";
                 GenerateApp ctx_A None "/140523/" "/140523/"])
       = (Ok tt, self2, tr2)
    /\ "140523" <> "140777"
    /\ DispatcherApp.pool self2
       = [] ++ [("140523", echo_app "/140523/"); ("140777", echo_app "/140777/")]
    /\ dict_get (DispatcherApp.pool self2) "140523" = Some (echo_app "/140523/")
    /\ dict_get (DispatcherApp.pool self2) "140777" = Some (echo_app "/140777/")
    /\ factory_calls tr2 = 2 + 0.
Proof.
  refine (distinct_contexts_distinct_entries (H := scripted_world) ctx_A ctx_B None None
            (serving None) []
            (mkDash (echo_app "/140523/") false false)
            (mkDash (echo_app "/140777/") false false) _ _ _ _ _).
  - vm_compute. discriminate.
  - vm_compute. reflexivity.
  - vm_compute. reflexivity.
  - vm_compute. reflexivity.
  - vm_compute. reflexivity.
Defined.

Lemma register_factory_raises_witness :
  DispatcherApp.register (H := scripted_variant true false false) ctx_A None
    (serving None) []
  = (Raise (Exception "share_tables option must be True|False|None or dict."),
     serving None,
     [] ++ [Log INFO "Creating App Entry: 140523";
            GenerateApp ctx_A None "/140523/" "/140523/"]).
Proof.
  refine (register_factory_raises (H := scripted_variant true false false) ctx_A None
            (serving None) []
            (Exception "share_tables option must be True|False|None or dict.") _ _).
  - vm_compute. reflexivity.
  - vm_compute. reflexivity.
Defined.

(* ===================================================================== *)
(** ** The status page *)
(* ===================================================================== *)

Lemma join_member (sep x : string) (l : list string) :
  In x l -> exists pre post, join sep l = pre +:+ x +:+ post.
Proof.
  induction l as [|x0 l IH]; intros Hin; [destruct Hin|].
  destruct Hin as [->|Hin].
  - destruct l as [|x1 l].
    + exists "", "". cbn. rewrite append_empty_r. reflexivity.
    + exists "", (sep +:+ join sep (x1 :: l)). reflexivity.
  - destruct (IH Hin) as (pre & post & Hj).
    destruct l as [|x1 l]; [destruct Hin|].
    exists (x0 +:+ sep +:+ pre), post.
    change (join sep (x0 :: x1 :: l)) with (x0 +:+ sep +:+ join sep (x1 :: l)).
    rewrite Hj. rewrite !append_assoc. reflexivity.
Qed.

(** X9.  The status page of a dispatcher with an empty pool is the
    template around the one line "No active links."; the status page of
    any other dispatcher holds, for every identifier of the pool, its list
    item, whose link is the path prefix the session was generated with. *)
Theorem root_page_lists_sessions (self : DispatcherApp.t) :
  match DispatcherApp.pool self with
  | [] =>
      DispatcherApp._root_content self
      = DispatcherApp.root_body_head +:+ "<li>No active links.</li>" +:+
        DispatcherApp.root_body_tail
  | _ =>
      Forall
        (fun key =>
           exists pre post,
             DispatcherApp._root_content self
             = pre +:+ session_item self key +:+ post)
        (dict_keys (DispatcherApp.pool self))
  end.
Proof.
  destruct (DispatcherApp.pool self) as [|kv pool'] eqn:Hpool.
  - unfold DispatcherApp._root_content. rewrite Hpool. reflexivity.
  - apply List.Forall_forall. intros key Hin.
    unfold DispatcherApp._root_content. rewrite Hpool.
    destruct (join_member Re.newline_str (session_item self key)
                (map (session_item self) (dict_keys (kv :: pool'))))
      as (pre & post & Hj).
    { apply in_map. exact Hin. }
    exists (DispatcherApp.root_body_head +:+ pre), (post +:+ DispatcherApp.root_body_tail).
    unfold session_item, ctx_path in *. rewrite Hj. rewrite !append_assoc. reflexivity.
Qed.

(* ===================================================================== *)
(** ** The lifecycle manager: stop, status, the background thread *)
(* ===================================================================== *)

Section Lifecycle.
Context `{Externals}.

Lemma set_thread_same (self : AppRunner.t) :
  AppRunner.set_thread (AppRunner._thread self) self = self.
Proof. destruct self; reflexivity. Qed.

(** The two ways [stop] ends. *)
Lemma stop_run (self : AppRunner.t) (tr : Trace) :
  exists (b : bool) (evs : Trace),
    AppRunner.stop self tr
    = (Ok b, (if b then AppRunner.set_thread None self else self), tr ++ evs)
    /\ (b = false -> exists th, AppRunner._thread self = Some th)
    /\ posts evs = match AppRunner._thread self with
                   | None => []
                   | Some _ => [AppRunner.http_url self "shutdown"]
                   end.
Proof.
  destruct (AppRunner._thread self) as [th|] eqn:Hth.
  - unfold AppRunner.stop. unfold bind at 1. unfold get at 1. rewrite Hth.
    unfold bind, log, emit, try_except, oracle, get, AppRunner.is_alive, ret, put.
    simpl. change (_build_path "shutdown" None) with "shutdown".
    destruct (requests_post _ _) as [resp|msg]; simpl.
    + rewrite Hth. destruct (thread_is_alive _ th).
      * exists false. eexists. rewrite <- !app_assoc.
        split; [reflexivity|]. split; [eauto | reflexivity].
      * exists true. eexists. rewrite <- !app_assoc.
        split; [reflexivity|]. split; [discriminate | reflexivity].
    + exists false. eexists. rewrite <- !app_assoc.
      split; [reflexivity|]. split; [eauto | reflexivity].
  - exists true, []. rewrite (stop_never_started self tr Hth).
    rewrite app_nil_r. rewrite <- Hth at 1. rewrite set_thread_same.
    split; [reflexivity|]. split; [discriminate | reflexivity].
Qed.

(** X10.  Whenever [stop] returns, its answer says whether the manager
    still holds a thread handle: [True] with the handle dropped and nothing
    else changed, [False] with the manager as it was.  A manager that was
    never started has made no request; a started one has made exactly one
    POST, to [/shutdown] at its own address, whatever its base prefix.
    ([stop] need not return: line 105 catches [RequestException] alone.) *)
Theorem stop_result (self self' : AppRunner.t) (b : bool) (tr tr' : Trace) :
  AppRunner.stop self tr = (Ok b, self', tr') ->
  self' = (if b then AppRunner.set_thread None self else self)
  /\ b = match AppRunner._thread self' with
         | None => true
         | Some _ => false
         end
  /\ exists evs,
       tr' = tr ++ evs
       /\ posts evs = match AppRunner._thread self with
                      | None => []
                      | Some _ => [AppRunner.http_url self "shutdown"]
                      end.
Proof.
  intros Hstop.
  destruct (stop_run self tr) as (b0 & evs & Heq & Hb & Hposts).
  rewrite Heq in Hstop. injection Hstop as <- <- <-.
  split; [reflexivity|]. split; [| exists evs; split; [reflexivity | exact Hposts]].
  destruct b0; [reflexivity|]. destruct (Hb eq_refl) as [th ->]. reflexivity.
Qed.

(** X13.  Whenever [status] returns, the manager is as it was and the
    snapshot has its address, base prefix and flag; [thread_alive] is
    [False] for a manager that holds no thread and the thread's
    [is_alive()] otherwise; [http_reachable] says whether the one GET that
    was made, for the root path at the manager's address, got a response.
    ([status] need not return: line 149 catches [RequestException] alone.) *)
Theorem status_snapshot (self self' : AppRunner.t) (st : AppRunner.status_dict)
    (tr tr' : Trace) :
  let url := AppRunner.http_url self "" in
  AppRunner.status self tr = (Ok st, self', tr') ->
  self' = self
  /\ st = AppRunner.mkStatus (AppRunner.ip self, AppRunner.port self)
            (AppRunner.base_url self) (AppRunner.use_relative_links self)
            (match AppRunner._thread self with
             | Some th => thread_is_alive tr th
             | None => false
             end)
            (match requests_get tr url with inl _ => true | inr _ => false end)
  /\ tr' = tr ++ [HttpGet url;
                  Log INFO (match requests_get tr url with
                            | inl _ => "Dashboard ping succeeded"
                            | inr msg => "Dashboard ping failed: " +:+ msg
                            end)].
Proof.
  intros url. subst url.
  unfold AppRunner.status, bind, get, AppRunner.ping, bind, get,
    try_except, oracle, log, emit, ret, AppRunner.is_alive.
  change (_build_path "" None) with "".
  destruct (AppRunner._thread self) as [th|];
    destruct (requests_get tr _) as [resp|msg]; cbn;
    rewrite <- ?app_assoc; intros Hst; injection Hst as <- <- <-;
    repeat split; reflexivity.
Qed.

(** X14.  The target of the background thread never raises.  When the
    server can be created it is stored as [config["server"]] of the
    dispatcher, also when serving then fails; when it cannot, the manager
    is as it was.  Nothing else of the manager or the dispatcher changes. *)
Theorem run_never_raises (self : AppRunner.t) (tr : Trace) :
  exists evs,
    AppRunner._run self tr
    = (Ok tt,
       match wsgi_server_new tr (AppRunner.ip self) (AppRunner.port self) with
       | Ok srv =>
           AppRunner.set_app
             (DispatcherApp.set_config
                (<["server" := srv]> (DispatcherApp.config (AppRunner.app self)))
                (AppRunner.app self)) self
       | Raise _ => self
       end,
       tr ++ ServerNew (AppRunner.ip self) (AppRunner.port self) :: evs).
Proof.
  unfold AppRunner._run, try_except, bind, get, oracle, put, log, emit, raises_to_result.
  destruct (wsgi_server_new tr _ _) as [srv|e]; cbn.
  - destruct (wsgi_serve_forever _ srv) as [e|]; cbn;
      eexists; rewrite <- ?app_assoc; reflexivity.
  - eexists; rewrite <- ?app_assoc; reflexivity.
Qed.

(** X15.  Once the background thread has created its server, a request for
    [/shutdown] to the manager's dispatcher stops that very server and is
    answered 200 with [b"Shutdown"]; the pool is the one the manager had
    before the thread ran.  The server is assumed to stop without raising
    and to take the status line. *)
Theorem run_then_shutdown (self : AppRunner.t) (srv : Server) (environ : Environ)
    (tr tr' : Trace) :
  let self' := (AppRunner._run self tr).1.2 in
  let tr1 := tr' ++ request_log environ ++ [Log INFO "Shutting down."] in
  wsgi_server_new tr (AppRunner.ip self) (AppRunner.port self) = Ok srv ->
  environ !! "PATH_INFO" = Some "/shutdown" ->
  wsgi_server_stop tr1 srv = None ->
  accepts (tr1 ++ [ServerStop srv]) "200 OK" DispatcherApp.html_headers = true ->
  DispatcherApp.pool (AppRunner.app self') = DispatcherApp.pool (AppRunner.app self)
  /\ DispatcherApp.__call__ environ (AppRunner.app self') tr'
     = (Ok [bytes_literal "Shutdown"], AppRunner.app self',
        tr1 ++ [ServerStop srv; StartResponse "200 OK" DispatcherApp.html_headers true]).
Proof.
  intros self' tr1 Hnew Hp Hstop Hacc.
  assert (Hself : self' = AppRunner.set_app
             (DispatcherApp.set_config
                (<["server" := srv]> (DispatcherApp.config (AppRunner.app self)))
                (AppRunner.app self)) self).
  { unfold self', AppRunner._run, try_except, bind, get, oracle, put, log, emit,
      raises_to_result. rewrite Hnew. cbn.
    destruct (wsgi_serve_forever _ srv); reflexivity. }
  rewrite Hself. split; [reflexivity|].
  rewrite call_unfold, Hp. unfold try_except, DispatcherApp.dispatch. simpl.
  unfold bind, log, emit, get, getitem, server_stop, oracle, start_response, ret.
  cbn [DispatcherApp.config DispatcherApp.set_config AppRunner.app AppRunner.set_app].
  rewrite lookup_insert_eq. unfold ret. subst tr1. unfold accepts in Hacc.
  rewrite <- ?app_assoc in *. simpl in *.
  rewrite Hstop. simpl.
  destruct (wsgi_start_response _ _ _); [discriminate|].
  reflexivity.
Qed.

(** X16.  A cycle of [start], the thread target [_run] and [stop].  [start]
    records the handle of the thread it spawned, whatever handle the
    manager held; the thread creates its server, stores it as
    [config["server"]] of the dispatcher and serves; a [stop] whose
    shutdown request gets through and whose thread has ended by the end of
    the join says [True].  The manager is then without a handle and has the
    server of this cycle in the config of its dispatcher, and is otherwise
    as it was before [start].  The thread is taken to have come to serving
    before [stop] is called, and its serving to end without an error. *)
Theorem start_then_stop (self : AppRunner.t) (srv : Server) (resp : string)
    (tr : Trace) :
  let ip := AppRunner.ip self in
  let port := AppRunner.port self in
  let tr0 := tr ++ [Log INFO ("Running app runner on: " +:+ ip +:+ ":"
                              +:+ pretty port)] in
  let th := thread_spawn tr0 in
  let tr1 := tr0 ++ [ThreadStart th] in
  let tr2 := tr1 ++ [ServerNew ip port; ServeForever srv] in
  let url := AppRunner.http_url self "shutdown" in
  let tr3 := tr2 ++ [Log INFO "Triggering shutdown"] in
  let tr4 := tr3 ++ [HttpPost url; Log DEBUG resp; ThreadJoin th 5] in
  let served :=
    AppRunner.set_app
      (DispatcherApp.set_config
         (<["server" := srv]> (DispatcherApp.config (AppRunner.app self)))
         (AppRunner.app self)) self in
  wsgi_server_new tr1 ip port = Ok srv ->
  wsgi_serve_forever (tr1 ++ [ServerNew ip port]) srv = None ->
  requests_post tr3 url = inl resp ->
  thread_is_alive tr4 th = false ->
  AppRunner.start self tr = (Ok tt, AppRunner.set_thread (Some th) self, tr1)
  /\ AppRunner._run (AppRunner.set_thread (Some th) self) tr1
     = (Ok tt, AppRunner.set_thread (Some th) served, tr2)
  /\ AppRunner.stop (AppRunner.set_thread (Some th) served) tr2
     = (Ok true, AppRunner.set_thread None served, tr4).
Proof.
  intros ip port tr0 th tr1 tr2 url tr3 tr4 served Hnew Hserve Hpost Hdead.
  split; [| split].
  - unfold AppRunner.start, bind, get, log, emit, put. fold ip port tr0 th.
    reflexivity.
  - unfold AppRunner._run, try_except, bind, get, oracle, put, log, emit,
      raises_to_result.
    cbn [AppRunner.ip AppRunner.port AppRunner.set_thread].
    fold ip port. rewrite Hnew. cbn. fold ip port. rewrite Hserve.
    unfold tr2. rewrite <- !app_assoc. reflexivity.
  - unfold AppRunner.stop. unfold bind at 1. unfold get at 1.
    cbn [AppRunner._thread AppRunner.set_thread].
    unfold bind, log, emit, try_except, oracle, get, AppRunner.is_alive, ret, put.
    simpl. change (_build_path "shutdown" None) with "shutdown".
    change (AppRunner.http_url (AppRunner.set_thread (Some th) served) "shutdown")
      with url.
    fold tr3. rewrite Hpost. simpl.
    replace (((tr3 ++ [HttpPost url]) ++ [Log DEBUG resp]) ++ [ThreadJoin th 5])
      with tr4 by (unfold tr4; rewrite <- !app_assoc; reflexivity).
    rewrite Hdead. reflexivity.
Qed.

(** X17.  [display] leaves the manager as it is and makes no request: it
    logs the link of [display_link] and shows one piece of HTML, a comment
    with the link, the "Open in new window" anchor to the link when asked
    for, and an inline frame whose source is the link, with the width and
    height as they were passed. *)
Theorem display_embeds_link (ctx : PyObject) (width height : string) (open_link : bool)
    (self : AppRunner.t) (tr : Trace) :
  exists url,
    (AppRunner.display_link ctx self tr).1.1 = Ok url
    /\ AppRunner.display ctx width height open_link self tr
       = (Ok tt, self,
          tr ++ [Log INFO ("Display URL: " +:+ url);
                 DisplayHtml
                   ("<!-- " +:+ url +:+ " -->" +:+ Re.newline_str +:+
                    (if open_link
                     then "<a href=" +:+ dq +:+ url +:+ dq +:+ " target=" +:+ dq +:+
                          "_new" +:+ dq +:+ ">Open in new window</a>"
                     else "") +:+
                    "<iframe src=" +:+ dq +:+ url +:+ dq +:+ " width=" +:+ width +:+
                    " height=" +:+ height +:+ " frameBorder=" +:+ dq +:+ "0" +:+ dq +:+
                    "></iframe>")]).
Proof.
  eexists. split; [reflexivity|].
  unfold AppRunner.display, AppRunner.display_link, bind, get, log, emit, ret.
  cbn [fst snd]. rewrite <- app_assoc. cbn [app].
  destruct open_link; rewrite ?append_assoc; reflexivity.
Qed.

End Lifecycle.

Lemma stop_succeeds_witness :
  AppRunner.stop (H := scripted_variant false true false) (runner_A false (Some 3%nat)) []
  = (Ok true, AppRunner.set_thread None (runner_A false (Some 3%nat)),
     ([] ++ [Log INFO "Triggering shutdown"])
       ++ [HttpPost "http://127.0.0.1:7001/shutdown"; Log DEBUG "<Response [200]>";
           ThreadJoin 3%nat 5]).
Proof.
  refine (proj1 (stop_succeeds (H := scripted_variant false true false)
                   (runner_A false (Some 3%nat)) 3%nat "<Response [200]>" [] _ _ _)).
  - reflexivity.
  - reflexivity.
  - reflexivity.
Defined.

Lemma stop_request_fails_witness :
  AppRunner.stop (H := scripted_variant false false true) (runner_A false (Some 3%nat)) []
  = (Ok false, runner_A false (Some 3%nat),
     ([] ++ [Log INFO "Triggering shutdown"])
       ++ [HttpPost "http://127.0.0.1:7001/shutdown";
           Log INFO "Dashboard stop failed: Connection refused"]).
Proof.
  refine (stop_request_fails (H := scripted_variant false false true)
            (runner_A false (Some 3%nat)) 3%nat "Connection refused" [] _ _).
  - reflexivity.
  - reflexivity.
Defined.

Lemma run_then_shutdown_witness :
  let self' := (AppRunner._run (H := scripted_world) (runner_A false (Some 3%nat)) []).1.2 in
  DispatcherApp.pool (AppRunner.app self') = DispatcherApp.pool registered_A
  /\ DispatcherApp.__call__ (H := scripted_world) (get_request "/shutdown")
       (AppRunner.app self') []
     = (Ok [bytes_literal "Shutdown"], AppRunner.app self',
        ([] ++ request_log (get_request "/shutdown") ++ [Log INFO "Shutting down."])
          ++ [ServerStop 1%nat;
              StartResponse "200 OK" DispatcherApp.html_headers true]).
Proof.
  refine (run_then_shutdown (H := scripted_world) (runner_A false (Some 3%nat)) 1%nat
            (get_request "/shutdown") [] [] _ _ _ _).
  - reflexivity.
  - vm_compute. reflexivity.
  - reflexivity.
  - reflexivity.
Defined.

Lemma start_then_stop_witness :
  let self := runner_A false None in
  let served :=
    AppRunner.set_app
      (DispatcherApp.set_config (<["server" := 1%nat]> (DispatcherApp.config registered_A))
         registered_A) self in
  let tr1 := [Log INFO "Running app runner on: 127.0.0.1:7001"; ThreadStart 1%nat] in
  let tr2 := tr1 ++ [ServerNew "127.0.0.1" 7001; ServeForever 1%nat] in
  AppRunner.start (H := scripted_variant false true false) self []
  = (Ok tt, AppRunner.set_thread (Some 1%nat) self, tr1)
  /\ AppRunner._run (H := scripted_variant false true false)
       (AppRunner.set_thread (Some 1%nat) self) tr1
     = (Ok tt, AppRunner.set_thread (Some 1%nat) served, tr2)
  /\ AppRunner.stop (H := scripted_variant false true false)
       (AppRunner.set_thread (Some 1%nat) served) tr2
     = (Ok true, AppRunner.set_thread None served,
        (tr2 ++ [Log INFO "Triggering shutdown"])
          ++ [HttpPost "http://127.0.0.1:7001/shutdown"; Log DEBUG "<Response [200]>";
              ThreadJoin 1%nat 5]).
Proof.
  refine (start_then_stop (H := scripted_variant false true false)
            (runner_A false None) 1%nat "<Response [200]>" [] _ _ _ _).
  - reflexivity.
  - reflexivity.
  - reflexivity.
  - reflexivity.
Defined.

Lemma stop_result_witness :
  let self := runner_A false (Some 3%nat) in
  AppRunner.set_thread None self = AppRunner.set_thread None self
  /\ true = match AppRunner._thread (AppRunner.set_thread None self) with
            | None => true
            | Some _ => false
            end
  /\ exists evs,
       [Log INFO "Triggering shutdown"; HttpPost "http://127.0.0.1:7001/shutdown";
        Log DEBUG "<Response [200]>"; ThreadJoin 3%nat 5] = [] ++ evs
       /\ posts evs = [AppRunner.http_url self "shutdown"].
Proof.
  refine (stop_result (H := scripted_variant false true false)
            (runner_A false (Some 3%nat))
            (AppRunner.set_thread None (runner_A false (Some 3%nat))) true []
            [Log INFO "Triggering shutdown"; HttpPost "http://127.0.0.1:7001/shutdown";
             Log DEBUG "<Response [200]>"; ThreadJoin 3%nat 5] _).
  vm_compute. reflexivity.
Defined.

Lemma status_snapshot_witness :
  let self := runner_A false (Some 3%nat) in
  self = self
  /\ AppRunner.mkStatus ("127.0.0.1", 7001%Z) (Some "b") false false true
     = AppRunner.mkStatus (AppRunner.ip self, AppRunner.port self)
         (AppRunner.base_url self) (AppRunner.use_relative_links self) false true
  /\ [HttpGet "http://127.0.0.1:7001/"; Log INFO "Dashboard ping succeeded"]
     = [] ++ [HttpGet (AppRunner.http_url self ""); Log INFO "Dashboard ping succeeded"].
Proof.
  refine (status_snapshot (H := scripted_variant false true false)
            (runner_A false (Some 3%nat)) (runner_A false (Some 3%nat))
            (AppRunner.mkStatus ("127.0.0.1", 7001%Z) (Some "b") false false true) []
            [HttpGet "http://127.0.0.1:7001/"; Log INFO "Dashboard ping succeeded"] _).
  vm_compute. reflexivity.
Defined.

(* ===================================================================== *)
(** ** What the constructors establish and the methods keep *)
(* ===================================================================== *)

Section Invariants.
Context `{Externals}.


(** X21.  The methods that change a manager keep it consistent with its
    dispatcher: after [register], [start], [stop] and the thread target
    [_run], however they end, both still have the same base prefix and
    flag, and the pattern is still the one compiled from the prefix. *)
Theorem methods_keep_consistent (self : AppRunner.t) (ctx : PyObject)
    (opts : option PyObject) (tr : Trace) :
  consistent self ->
  consistent (AppRunner.register ctx opts self tr).1.2
  /\ consistent (AppRunner.start self tr).1.2
  /\ consistent (AppRunner.stop self tr).1.2
  /\ consistent (AppRunner._run self tr).1.2.
Proof.
  intros Hc. split; [| split; [| split]].
  - unfold AppRunner.register, zoom. rewrite register_run.
    destruct (dict_get _ _) as [a|]; [destruct self; exact Hc|].
    destruct (generate_app _ _ _ _ _) as [dash|e]; destruct self; exact Hc.
  - unfold AppRunner.start, bind, get, log, emit, put. destruct self; exact Hc.
  - destruct (stop_run self tr) as (b & evs & Heq & _). rewrite Heq.
    destruct b; destruct self; exact Hc.
  - unfold AppRunner._run, try_except, bind, get, oracle, put, log, emit,
      raises_to_result.
    destruct (wsgi_server_new tr _ _) as [srv|e]; cbn; [| exact Hc].
    destruct (wsgi_serve_forever _ srv); destruct self; exact Hc.
Qed.

End Invariants.


Lemma methods_keep_consistent_witness :
  consistent (AppRunner.register (H := scripted_world) ctx_B None
                (runner_A false None) []).1.2
  /\ consistent (AppRunner.start (H := scripted_world) (runner_A false None) []).1.2
  /\ consistent (AppRunner.stop (H := scripted_world) (runner_A false None) []).1.2
  /\ consistent (AppRunner._run (H := scripted_world) (runner_A false None) []).1.2.
Proof.
  refine (methods_keep_consistent (H := scripted_world) (runner_A false None) ctx_B
            None [] _).
  unfold consistent. repeat split; vm_compute; reflexivity.
Defined.
(* ===================================================================== *)
(** ** The session factory: which tables are shared *)
(* ===================================================================== *)

Section UdashFacts.
Context {DataFrame Dash : Type}.
Context (df_prepare : DataFrame -> result DataFrame).
Context (df_equals : DataFrame -> DataFrame -> bool).
Context (generate_app_full : option string -> option string -> result Dash).
Context (generate_app_mini :
           Udash.Explanation (DataFrame := DataFrame) * option DataFrame ->
           option string -> option string -> option string -> result Dash).

Lemma first_of_app (t : string)
    (l1 l2 : list (Udash.Explanation (DataFrame := DataFrame) * option DataFrame)) :
  Udash.first_of t (l1 ++ l2)
  = match Udash.first_of t l1 with
    | Some df => Some df
    | None => Udash.first_of t l2
    end.
Proof.
  induction l1 as [|[e df] l1 IH]; simpl; [reflexivity|].
  destruct (String.eqb _ t); [reflexivity | exact IH].
Qed.

Lemma agrees_with_no_items (first : option (option DataFrame)) (t : string)
    (l : list (Udash.Explanation (DataFrame := DataFrame) * option DataFrame)) :
  Udash.first_of t l = None ->
  Udash.agrees_with df_equals first t l = true.
Proof.
  induction l as [|[e df] l IH]; simpl; [reflexivity|].
  destruct (String.eqb _ t); [discriminate|]. exact IH.
Qed.

Lemma agrees_with_first_frame (first : option (option DataFrame)) (t : string)
    (l : list (Udash.Explanation (DataFrame := DataFrame) * option DataFrame)) :
  Udash.agrees_with df_equals first t l = true -> Udash.first_of t l <> Some None.
Proof.
  induction l as [|[e df] l IH]; simpl; [discriminate|].
  destruct (String.eqb _ t).
  - destruct df as [d|]; [discriminate | discriminate].
  - exact IH.
Qed.

Lemma share_step_inv (t : string)
    (seen : list (Udash.Explanation (DataFrame := DataFrame) * option DataFrame))
    st (it : Udash.Explanation (DataFrame := DataFrame) * option DataFrame) :
  Udash.share_inv df_equals t seen st ->
  Udash.share_inv df_equals t (seen ++ [it]) (Udash.share_step df_equals st it).
Proof.
  destruct st as [shared first], it as [e df]. intros [Hshared Hfirst].
  simpl in Hshared, Hfirst.
  unfold Udash.share_inv, Udash.agrees, Udash.agrees_with.
  rewrite first_of_app, forallb_app. cbn [Udash.first_of forallb fst snd].
  unfold Udash.share_step.
  destruct (String.eqb_spec (Udash.explanation_type e) t) as [Het|Het].
  - (* an explanation of the type [t] *)
    rewrite Het.
    destruct (Udash.first_of t seen) as [f|] eqn:Hf.
    + (* not the first one *)
      fold (Udash.agrees_with df_equals (Some f) t seen).
      assert (Hag : Udash.agrees df_equals t seen
                    = Udash.agrees_with df_equals (Some f) t seen).
      { unfold Udash.agrees. rewrite Hf. reflexivity. }
      rewrite <- Hag.
      destruct (Udash.agrees df_equals t seen) eqn:Hagree.
      * specialize (Hfirst eq_refl).
        destruct f as [d0|].
        2:{ exfalso. apply (agrees_with_first_frame _ t seen Hagree). exact Hf. }
        rewrite Hfirst.
        destruct df as [d|]; cbn [andb].
        -- rewrite Hfirst. destruct (df_equals d d0); cbn [negb fst snd].
           ++ split; [exact Hshared | intros _; exact Hfirst].
           ++ split; [apply dict_get_set_eq | discriminate].
        -- cbn [fst snd]. split; [apply dict_get_set_eq | discriminate].
      * cbn [andb]. split; [| discriminate].
        destruct (dict_get first t) as [[d0|]|];
          repeat match goal with
                 | |- context [match ?x with _ => _ end] => destruct x
                 end; cbn [fst snd];
          first [ exact Hshared | apply dict_get_set_eq ].
    + (* the first one *)
      assert (Hvac : Udash.agrees_with df_equals (Some df) t seen = true)
        by (apply agrees_with_no_items; exact Hf).
      unfold Udash.agrees_with in Hvac. rewrite Hvac. cbn [andb].
      assert (Hag : Udash.agrees df_equals t seen = true)
        by (apply agrees_with_no_items; exact Hf).
      specialize (Hfirst Hag). rewrite Hag in Hshared.
      rewrite Hfirst.
      destruct df as [d|].
      * rewrite dict_get_set_eq. destruct (df_equals d d); cbn [negb fst snd].
        -- split; [exact Hshared | intros _; apply dict_get_set_eq].
        -- split; [apply dict_get_set_eq | discriminate].
      * cbn [fst snd]. split; [apply dict_get_set_eq | discriminate].
  - (* an explanation of another type *)
    rewrite andb_true_r.
    assert (Hne : t <> Udash.explanation_type e) by congruence.
    assert (Hfo : match Udash.first_of t seen with
                  | Some df0 => Some df0
                  | None => None
                  end = Udash.first_of t seen)
      by (destruct (Udash.first_of t seen); reflexivity).
    rewrite Hfo. fold (Udash.agrees_with df_equals (Udash.first_of t seen) t seen).
    fold (Udash.agrees df_equals t seen).
    assert (Hget1 : forall fd, dict_get
              (match dict_get first (Udash.explanation_type e) with
               | Some (Some _) => first
               | _ => dict_set first (Udash.explanation_type e) fd
               end) t = dict_get first t).
    { intros fd. destruct (dict_get first (Udash.explanation_type e)) as [[?|]|];
        [reflexivity | apply dict_get_set_ne; exact Hne..]. }
    match goal with
    | |- context [if ?c then _ else _] => destruct c
    end; cbn [fst snd]; rewrite ?Hget1, ?dict_get_set_ne by exact Hne;
      split; assumption.
Qed.

Lemma share_loop_inv (t : string)
    (rest : list (Udash.Explanation (DataFrame := DataFrame) * option DataFrame)) :
  forall seen st,
    Udash.share_inv df_equals t seen st ->
    Udash.share_inv df_equals t (seen ++ rest)
      (fold_left (Udash.share_step df_equals) rest st).
Proof.
  induction rest as [|it rest IH]; intros seen st Hinv; simpl.
  - rewrite app_nil_r. exact Hinv.
  - replace (seen ++ it :: rest) with ((seen ++ [it]) ++ rest)
      by (rewrite <- app_assoc; reflexivity).
    apply IH. apply share_step_inv. exact Hinv.
Qed.

(** X18.  For a list context and [share_tables=None], when the full
    application can be built and every item can be expanded: the
    application is returned with the expanded items in order as its [ctx],
    and in its options each of the types data, perf, global and local is
    marked shared exactly when every explanation of that type has a frame
    and each of these frames equals that of the first explanation of the
    type; a type without explanations is marked shared. *)
Theorem share_tables_none_by_frames
    (items : list (Udash.ctx_item (DataFrame := DataFrame)))
    (options : gmap string Udash.value) (url_base rp rt : option string)
    (dash : Dash)
    (new_ctx : list (Udash.Explanation (DataFrame := DataFrame) * option DataFrame)) :
  generate_app_full rp rt = Ok dash ->
  Udash.expand_all df_prepare items = Ok new_ctx ->
  exists shared_frames,
    Udash.generate_app df_prepare df_equals generate_app_full generate_app_mini
      (Udash.CtxList items) (<["share_tables" := Udash.VNone]> options) url_base rp rt
    = Ok (Udash.FullApp dash new_ctx
            (<["share_tables" := Udash.VDict shared_frames]> options))
    /\ Forall
         (fun t => dict_get shared_frames t = Some (Udash.agrees df_equals t new_ctx))
         Udash.supported_types.
Proof.
  intros Hfull Hexp. eexists. split.
  - unfold Udash.generate_app. rewrite Hfull, Hexp, lookup_insert_eq.
    unfold Udash.decide_shared. rewrite insert_insert_eq. reflexivity.
  - apply List.Forall_forall. intros t Ht.
    assert (Hinit : Udash.share_inv df_equals t [] (Udash.all_types true, [])).
    { split; [| intros _; reflexivity].
      cbn in Ht. destruct Ht as [<-|[<-|[<-|[<-|[]]]]]; reflexivity. }
    apply (share_loop_inv t new_ctx [] _) in Hinit.
    exact (proj1 Hinit).
Qed.

End UdashFacts.

Lemma share_tables_none_by_frames_witness :
  let local1 := Udash.mkExplanation "local" (Some [Some 1; Some 2]%Z) in
  let local2 := Udash.mkExplanation "local" None in
  let global1 := Udash.mkExplanation "global" None in
  let new_ctx := [(local1, Some [Some 1; Some 2]%Z); (local2, Some [Some 1; Some 2]%Z);
                  (global1, None)] in
  exists shared_frames,
    Udash.generate_app rows_prepare rows_equal dash_full dash_mini
      (Udash.CtxList [Udash.ItemExplanation local1;
                      Udash.ItemTuple local2 (Some [Some 1; Some 2]%Z);
                      Udash.ItemExplanation global1])
      (<["share_tables" := Udash.VNone]> ∅) None (Some "/1/") (Some "/1/")
    = Ok (Udash.FullApp (Some "/1/", Some "/1/") new_ctx
            (<["share_tables" := Udash.VDict shared_frames]> ∅))
    /\ Forall
         (fun t => dict_get shared_frames t = Some (Udash.agrees rows_equal t new_ctx))
         Udash.supported_types.
Proof.
  refine (share_tables_none_by_frames rows_prepare rows_equal dash_full dash_mini
            [Udash.ItemExplanation (Udash.mkExplanation "local" (Some [Some 1; Some 2]%Z));
             Udash.ItemTuple (Udash.mkExplanation "local" None) (Some [Some 1; Some 2]%Z);
             Udash.ItemExplanation (Udash.mkExplanation "global" None)]
            ∅ None (Some "/1/") (Some "/1/") (Some "/1/", Some "/1/")
            [(Udash.mkExplanation "local" (Some [Some 1; Some 2]%Z),
              Some [Some 1; Some 2]%Z);
             (Udash.mkExplanation "local" None, Some [Some 1; Some 2]%Z);
             (Udash.mkExplanation "global" None, None)] _ _).
  - reflexivity.
  - vm_compute. reflexivity.
Defined.

(** Two local explanations with the same rows and a global one without a
    frame: local tables are shared, global ones are not, and the types
    without explanations are. *)
Example share_tables_worked :
  let local1 := Udash.mkExplanation "local" (Some [Some 1; Some 2]%Z) in
  let local2 := Udash.mkExplanation "local" None in
  let global1 := Udash.mkExplanation "global" None in
  Udash.generate_app rows_prepare rows_equal dash_full dash_mini
    (Udash.CtxList [Udash.ItemExplanation local1;
                    Udash.ItemTuple local2 (Some [Some 1; Some 2]%Z);
                    Udash.ItemExplanation global1])
    (<["share_tables" := Udash.VNone]> ∅) None (Some "/1/") (Some "/1/")
  = Ok (Udash.FullApp (Some "/1/", Some "/1/")
          [(local1, Some [Some 1; Some 2]%Z); (local2, Some [Some 1; Some 2]%Z);
           (global1, None)]
          (<["share_tables" :=
               Udash.VDict [("data", true); ("perf", true); ("global", false);
                            ("local", true)]]> ∅)).
Proof. vm_compute. reflexivity. Qed.

(** A frame with a cell that does not multiply: the expansion of the item
    raises, before the options are looked at. *)
Example expansion_raises_first :
  let dated := Udash.mkExplanation "local" (Some [Some 1; None]%Z) in
  Udash.generate_app rows_prepare rows_equal dash_full dash_mini
    (Udash.CtxList [Udash.ItemExplanation dated]) ∅ None (Some "/1/") (Some "/1/")
  = Raise (Exception "unsupported operand type(s) for *").
Proof. vm_compute. reflexivity. Qed.
(* ===================================================================== *)
(** ** Registration beside other threads *)
(* ===================================================================== *)

Lemma dict_get_app_other {V} (d : list (string * V)) (key key' : string) (v : V) :
  key <> key' -> dict_get (d ++ [(key', v)]) key = dict_get d key.
Proof.
  intros Hne. induction d as [|[k w] d IH]; simpl.
  - destruct (String.eqb_spec key' key); [congruence | reflexivity].
  - destruct (String.eqb k key); [reflexivity | exact IH].
Qed.

Section Concurrency.
Context `{Externals}.

Lemma call_preserves (environ : Environ) : preserves (DispatcherApp.__call__ environ).
Proof.
  unfold DispatcherApp.__call__.
  apply preserves_bind; [frame | intros _].
  apply preserves_bind; [frame | intros _].
  apply preserves_try_except; [apply dispatch_preserves | intros e].
  unfold DispatcherApp.on_exception. frame.
Qed.

(** A request only reads. *)
Lemma request_thread_reader (environ : Environ) : reader (request_thread environ).
Proof.
  unfold request_thread. apply reader_Step.
  - apply preserves_bind; [apply call_preserves | intros _; apply preserves_ret].
  - intros o tr rest o' tr'. unfold bind.
    destruct (DispatcherApp.__call__ environ o tr) as [[[body|e] o1] tr1];
      [| discriminate].
    unfold ret. intros Heq. injection Heq as <- _ _. constructor.
Qed.

(** [register] is its steps run one after the other. *)
Lemma register_as_steps (ctx : PyObject) (share_tables : option PyObject)
    (self : DispatcherApp.t) (tr : Trace) :
  DispatcherApp.register ctx share_tables self tr
  = (absent <- register_check ctx ;;
     if (absent : bool) then
       app <- register_build ctx share_tables ;;
       register_store ctx app
     else register_found ctx) self tr.
Proof.
  unfold DispatcherApp.register, register_check, register_build, register_store,
    register_found, bind, get, ret.
  destruct (negb _); [| reflexivity].
  unfold log, emit, oracle.
  destruct (generate_app _ _ _ _ _); reflexivity.
Qed.

Lemma register_check_run (ctx : PyObject) (s : DispatcherApp.t) (tr : Trace) :
  register_check ctx s tr
  = (Ok (negb (dict_contains (DispatcherApp.pool s) (DispatcherApp.obj_id ctx))), s, tr).
Proof. reflexivity. Qed.

Lemma register_build_run (ctx : PyObject) (share_tables : option PyObject)
    (s : DispatcherApp.t) (tr : Trace) :
  let ctx_id := DispatcherApp.obj_id ctx in
  let tr1 := tr ++ [Log INFO ("Creating App Entry: " +:+ ctx_id)] in
  register_build ctx share_tables s tr
  = (match generate_app tr1 ctx share_tables (ctx_path s ctx_id) (ctx_path s ctx_id) with
     | Ok dash => Ok (mkDash (server dash) true true)
     | Raise e => Raise e
     end,
     s, tr1 ++ [GenerateApp ctx share_tables (ctx_path s ctx_id) (ctx_path s ctx_id)]).
Proof.
  intros ctx_id tr1.
  unfold register_build, bind, get, log, emit, oracle, ret. fold ctx_id.
  fold (ctx_path s ctx_id). fold tr1.
  destruct (generate_app _ _ _ _ _); reflexivity.
Qed.

Lemma register_store_run (ctx : PyObject) (app : DashApp) (s : DispatcherApp.t)
    (tr : Trace) :
  register_store ctx app s tr
  = (Ok tt,
     DispatcherApp.set_pool
       (dict_set (DispatcherApp.pool s) (DispatcherApp.obj_id ctx) (server app)) s,
     tr).
Proof. reflexivity. Qed.

Lemma register_stage_whole (ctx : PyObject) (share_tables : option PyObject)
    (self s : DispatcherApp.t) (p : proc DispatcherApp.t) :
  register_stage ctx share_tables self p s -> whole_entry ctx share_tables self s.
Proof.
  intros [[_ ->] | [(_ & -> & _) | [[_ ->] | [(tr1 & dash & _ & _ & _ & ->) | [_ Hw]]]]];
    try (left; reflexivity).
  exact Hw.
Qed.

(** Whatever the schedule, a registration beside a reader goes from stage
    to stage. *)
Lemma interleave_register_stage (ctx : PyObject) (share_tables : option PyObject)
    (self : DispatcherApp.t) (schedule : list bool) :
  forall (p q : proc DispatcherApp.t) (s : DispatcherApp.t) (tr : Trace),
    reader q ->
    register_stage ctx share_tables self p s ->
    whole_entry ctx share_tables self (interleave schedule p q s tr).1.2.
Proof.
  induction schedule as [|first schedule IH]; intros p q s tr Hq Hst.
  - cbn. exact (register_stage_whole _ _ _ _ _ Hst).
  - destruct first; cbn [interleave].
    + (* the registration takes the step *)
      destruct Hst as [[-> ->] | [(-> & -> & Habs) | [[-> ->]
                        | [(tr1 & dash & Hgen & Habs & -> & ->) | [-> Hw]]]]].
      * unfold register_thread. unfold bind at 1. rewrite register_check_run.
        unfold ret. unfold dict_contains.
        destruct (dict_get (DispatcherApp.pool self) (DispatcherApp.obj_id ctx))
          as [a|] eqn:Hget; cbn [negb]; apply IH; try assumption.
        -- right; right; left. split; reflexivity.
        -- right; left. repeat split; assumption.
      * unfold register_building. unfold bind at 1. rewrite register_build_run.
        cbv zeta.
        destruct (generate_app _ ctx share_tables _ _) as [dash|e] eqn:Hgen;
          apply IH; try assumption.
        -- right; right; right; left. eexists _, dash. repeat split; eassumption.
        -- right; right; right; right. split; [reflexivity | left; reflexivity].
      * unfold register_finding, register_found, bind, log, emit, ret.
        apply IH; [assumption|].
        right; right; right; right. split; [reflexivity | left; reflexivity].
      * unfold register_storing. unfold bind at 1. rewrite register_store_run.
        unfold ret. apply IH; [assumption|].
        right; right; right; right. split; [reflexivity|].
        right. exists tr1, dash. repeat split; try assumption.
        cbn [server]. rewrite dict_get_absent_set by assumption. reflexivity.
      * apply IH; [assumption|].
        right; right; right; right. split; [reflexivity | assumption].
    + (* the reader takes the step *)
      inversion Hq as [|m Hpres Hrest]; subst.
      * apply IH; assumption.
      * pose proof (Hpres s tr) as Hs. specialize (Hrest s tr).
        destruct (m s tr) as [[r o'] tr']. cbn in Hs. subst o'.
        apply IH; [| assumption].
        destruct r as [rest|e]; [| constructor].
        eapply Hrest. reflexivity.
Qed.


End Concurrency.


